(** * flask_blogger: the JSON API and session lifecycle of [app.py]

    A shallow embedding of [src/render251016/app.py]: the [Post] table, the
    scoped session [get_session], the start-up seeding block, the five JSON
    handlers under [/api/posts] and the HTML pages, followed by the
    properties of the specification proved (or refuted) on that embedding
    (C1 to C10) and by further properties of the code (X1 onwards).

    Conventions of the embedding.
    - A Python [str] is a [string] whose characters are code points below 256.
    - A parsed JSON body is a [json] value; a Python [dict] is a [gmap] from
      keys to values.
    - The [posts] table is a [gmap] from the primary key to the other columns.
    - A [with get_session() as s:] block is a function on the working copy of
      the table (the session's unit of work) that returns or raises; what
      the scope stores is the working copy when the commit goes through and
      the table as it was otherwise.
    - The storage engine is the default one, SQLite: new keys are one more
      than the largest key, timestamps are naive and to the second. It may
      fail a commit or a rollback ([faults]); of the statements inside a
      scope only the lookup of a key that does not fit a signed 64-bit
      integer fails ([OverflowError]).
    - Python's [repr] of floats, lists and dicts is a parameter ([py_repr]);
      [str] of the other JSON values is computed. *)

From Stdlib Require Import ZArith String Ascii DecimalString PrimFloat.
From stdpp Require Import gmap strings list fin_maps sorting.

#[local] Set Warnings "-register-all".
#[local] Open Scope string_scope.
#[local] Open Scope Z_scope.

(** ** Python strings *)

(** [str.isspace] on one character: TAB..CR, FS..US, SPACE, NEL, NBSP. *)
Definition isspace (c : ascii) : bool :=
  let n := N_of_ascii c in
  (((9 <=? n) && (n <=? 13)) || ((28 <=? n) && (n <=? 32))
   || (n =? 133) || (n =? 160))%N.

Fixpoint lstrip (s : string) : string :=
  match s with
  | EmptyString => EmptyString
  | String c r => if isspace c then lstrip r else s
  end.

Fixpoint rstrip (s : string) : string :=
  match s with
  | EmptyString => EmptyString
  | String c r =>
      match rstrip r with
      | EmptyString => if isspace c then EmptyString else String c EmptyString
      | r' => String c r'
      end
  end.

(** [s.strip()] *)
Definition strip (s : string) : string := rstrip (lstrip s).

(** [not s] for a [str]. *)
Definition blank (s : string) : bool := String.eqb s "".

(** [k in s] for two [str]: [k] occurs in [s] as a substring. *)
Fixpoint occurs_in (k s : string) : bool :=
  String.prefix k s
  || match s with
     | EmptyString => false
     | String _ r => occurs_in k r
     end.

(** [s.zfill(w)], for the digits of a date. *)
Fixpoint zeros (n : nat) : string :=
  match n with
  | O => ""
  | S m => String "0" (zeros m)
  end.

Definition zfill (w : nat) (s : string) : string :=
  zeros (w - String.length s) ++ s.

Definition digits (n : nat) : string :=
  NilZero.string_of_uint (Nat.to_uint n).

(** ** JSON values, as [request.get_json] returns them *)

Inductive json : Type :=
  | JNull                           (* None *)
  | JBool (b : bool)                (* True, False *)
  | JInt (z : Z)                    (* int *)
  | JFloat (f : float)              (* float *)
  | JStr (s : string)               (* str *)
  | JList (l : list json)           (* list *)
  | JDict (d : gmap string json).   (* dict *)

(** Truth value of a Python object, as [or], [not] and [if] test it. *)
Definition truthy (v : json) : bool :=
  match v with
  | JNull => false
  | JBool b => b
  | JInt z => negb (z =? 0)
  | JFloat f => negb (PrimFloat.eqb f 0%float)
  | JStr s => negb (blank s)
  | JList l => match l with [] => false | _ :: _ => true end
  | JDict d => negb (bool_decide (size d = 0%nat))
  end.

(** [v or w] *)
Definition py_or (v w : json) : json := if truthy v then v else w.

(** The exceptions of the embedding, all instances of Python's [Exception]
    (so the [except Exception] clause of [get_session] catches each). *)
Inductive exn : Type :=
  | AttributeError
  | TypeError
  | KeyError
  | OverflowError
  | StorageError (msg : string).

Inductive outcome (A : Type) : Type :=
  | Return (a : A)
  | Raise (e : exn).
Arguments Return {A} a.
Arguments Raise {A} e.

(** [data.get(k)]: only a [dict] has the method. *)
Definition py_get (data : json) (k : string) : outcome json :=
  match data with
  | JDict d => Return (default JNull (d !! k))
  | _ => Raise AttributeError
  end.

(** [v.strip()]: only a [str] has the method. *)
Definition py_strip (v : json) : outcome string :=
  match v with
  | JStr s => Return (strip s)
  | _ => Raise AttributeError
  end.

(** [k in data] for a [str] key [k]. *)
Definition py_in (k : string) (data : json) : outcome bool :=
  match data with
  | JDict d => Return (bool_decide (is_Some (d !! k)))
  | JList l =>
      Return (existsb (fun v => match v with
                                | JStr s => String.eqb k s
                                | _ => false
                                end) l)
  | JStr s => Return (occurs_in k s)
  | JNull | JBool _ | JInt _ | JFloat _ => Raise TypeError
  end.

(** [data[k]] for a [str] key [k]. *)
Definition py_getitem (data : json) (k : string) : outcome json :=
  match data with
  | JDict d => match d !! k with
               | Some v => Return v
               | None => Raise KeyError
               end
  | _ => Raise TypeError
  end.

(** [request.get_json(silent=True) or {}]: the request body is [None] when
    it is absent or does not parse. *)
Definition get_json_or_empty (body : option json) : json :=
  py_or (default JNull body) (JDict ∅).

(** ** Timestamps *)

(** A [datetime] as the default engine returns it for [CURRENT_TIMESTAMP]:
    naive, to the second. *)
Record datetime : Type := mkDatetime {
  year : nat; month : nat; day : nat;
  hour : nat; minute : nat; second : nat
}.

(** [d.isoformat()] *)
Definition isoformat (d : datetime) : string :=
  zfill 4 (digits (year d)) ++ "-" ++ zfill 2 (digits (month d)) ++ "-"
  ++ zfill 2 (digits (day d)) ++ "T" ++ zfill 2 (digits (hour d)) ++ ":"
  ++ zfill 2 (digits (minute d)) ++ ":" ++ zfill 2 (digits (second d)).

(** ** The [Post] entity and the [posts] table *)

(** An instance of [class Post]. *)
Record Post : Type := mkPost {
  id : Z;
  title : string;
  author : string;
  content : string;
  created_at : option datetime
}.

(** A stored row: the columns other than the primary key, which is the key
    of the table. *)
Record Row : Type := mkRow {
  row_title : string;
  row_author : string;
  row_content : string;
  row_created_at : option datetime
}.

Abbreviation table := (gmap Z Row).

(** The object-relational mapping, in both directions. *)
Definition load (k : Z) (r : Row) : Post :=
  mkPost k (row_title r) (row_author r) (row_content r) (row_created_at r).

Definition row_of (p : Post) : Row :=
  mkRow (title p) (author p) (content p) (created_at p).

(** Attribute assignment [p.title = s], [p.author = s], [p.content = s]. *)
Definition set_title (s : string) (p : Post) : Post :=
  mkPost (id p) s (author p) (content p) (created_at p).
Definition set_author (s : string) (p : Post) : Post :=
  mkPost (id p) (title p) s (content p) (created_at p).
Definition set_content (s : string) (p : Post) : Post :=
  mkPost (id p) (title p) (author p) s (created_at p).

(** The keys the engine can hold and look up: SQLite's INTEGER, a signed
    64-bit integer. *)
Definition fits_int64 (k : Z) : bool :=
  (- 2 ^ 63 <=? k) && (k <? 2 ^ 63).

(** The key the default engine (SQLite, an INTEGER PRIMARY KEY without
    AUTOINCREMENT) gives a new row: one more than the largest key in use,
    1 in an empty table. (When the largest key is [2 ^ 63 - 1] SQLite tries
    unused keys at random instead; that case is not modelled.) *)
Definition max_key (t : table) : option Z :=
  map_fold (fun k _ acc => Some (match acc with
                                 | None => k
                                 | Some m => Z.max k m
                                 end)) None t.

Definition next_rowid (t : table) : Z :=
  match max_key t with
  | None => 1
  | Some m => m + 1
  end.

(** [ORDER BY id DESC] over the loaded rows. *)
Definition id_desc (p q : Post) : Prop := id q ≤ id p.

#[local] Instance id_desc_dec p q : Decision (id_desc p q) :=
  Z_le_dec (id q) (id p).

Definition all_posts (t : table) : list Post :=
  (fun kr => load (fst kr) (snd kr)) <$> map_to_list t.

Definition order_by_id_desc (t : table) : list Post :=
  merge_sort id_desc (all_posts t).

(** ** The scoped session *)

(** The methods [get_session] calls on the session it opened. *)
Inductive call : Type := Commit | Rollback | Close.

(** What the storage engine does to this scope: [Some e] when
    [session.commit()], respectively [session.rollback()], raises [e]. *)
Record faults : Type := mkFaults {
  commit_fails : option exn;
  rollback_fails : option exn
}.

Definition healthy : faults := mkFaults None None.

(** The body of a [with get_session() as s:] block: it reads and writes the
    session's working copy of the table, and returns or raises. *)
Definition work (A : Type) : Type := table -> outcome A * table.

Definition ret {A} (a : A) : work A := fun t => (Return a, t).


Definition bind {A B} (m : work A) (k : A -> work B) : work B :=
  fun t => match m t with
           | (Return a, t') => k a t'
           | (Raise e, t') => (Raise e, t')
           end.

(** A computation that does not touch the session. *)
Definition lift {A} (o : outcome A) : work A := fun t => (o, t).

Declare Scope work_scope.
Delimit Scope work_scope with work.
Notation "'let*' x := m 'in' k" := (bind m (fun x => k))
  (at level 10, x name, m at level 100, k at level 200) : work_scope.

(** What one scope leaves behind: what the caller gets, the table as stored
    afterwards, and the session methods that ran, in order. *)
Record run (A : Type) : Type := mkRun {
  result : outcome A;
  stored : table;
  calls : list call
}.
Arguments mkRun {A} _ _ _.
Arguments result {A} _.
Arguments stored {A} _.
Arguments calls {A} _.

(** [except Exception: session.rollback(); raise] followed by the [finally]
    clause. The transaction is never made durable on this path. *)
Definition on_exception {A} (eng : faults) (db : table) (e : exn)
    (before : list call) : run A :=
  match rollback_fails eng with
  | None => mkRun (Raise e) db (before ++ [Rollback; Close])
  | Some e' => mkRun (Raise e') db (before ++ [Rollback; Close])
  end.

(** [get_session]: run the body on the working copy; commit when it returns,
    roll back and re-raise when it (or the commit) raises; close always. *)
Definition get_session {A} (eng : faults) (body : work A) (db : table)
    : run A :=
  match body db with
  | (Return a, t') =>
      match commit_fails eng with
      | None => mkRun (Return a) t' [Commit; Close]
      | Some e => on_exception eng db e [Commit]
      end
  | (Raise e, _) => on_exception eng db e []
  end.

(** Code that opens no session. *)
Definition no_session {A} (o : outcome A) (db : table) : run A :=
  mkRun o db [].

(** *** Session methods used by the handlers *)

(** [s.get(Post, k)]: the row under [k], or [None]. A key that does not fit
    a signed 64-bit integer cannot be bound to the SELECT: the driver raises
    [OverflowError]. Such a key is under no row of a table the engine holds;
    on the other tables of the model the row is returned. *)
Definition s_get (k : Z) : work (option Post) :=
  fun t => match t !! k with
           | Some r => (Return (Some (load k r)), t)
           | None => if fits_int64 k then (Return None, t)
                     else (Raise OverflowError, t)
           end.

(** [p = Post(title=.., author=.., content=..); s.add(p); s.flush()]: the
    INSERT gives [p] its key and its [created_at] server default. *)
Definition s_add_flush (now : datetime) (ti au co : string) : work Post :=
  fun t => let p := mkPost (next_rowid t) ti au co (Some now) in
           (Return p, <[id p := row_of p]> t).

(** An attribute assignment on a persistent object: the row under its key
    is rewritten when the session flushes. *)
Definition s_assign (p : Post) : work unit :=
  fun t => (Return tt, <[id p := row_of p]> t).

(** [s.delete(p)] *)
Definition s_delete (p : Post) : work unit :=
  fun t => (Return tt, delete (id p) t).

(** [s.scalars(select(Post).order_by(Post.id.desc())).all()] *)
Definition s_select_desc : work (list Post) :=
  fun t => (Return (order_by_id_desc t), t).

(** [s.scalar(select(func.count(Post.id)))] *)
Definition s_count : work nat :=
  fun t => (Return (size t), t).

(** ** Start-up: the seed block *)

Definition seed_posts : list (string * string * string) :=
  [ ("Hello SQLAlchemy", "Alice",
     "This is your first DB-backed post."
     ++ String "010" "It persists in SQLite.");
    ("Edit & Delete", "Bob",
     "You can edit or delete this post from the UI below.") ].

(** [s.add_all([...])]: the INSERTs run in list order when the session
    flushes. *)
Fixpoint s_add_all (now : datetime) (ps : list (string * string * string))
    : work unit :=
  match ps with
  | [] => ret tt
  | (ti, au, co) :: rest =>
      (let* _ := s_add_flush now ti au co in s_add_all now rest)%work
  end.

Definition seed (now : datetime) : work unit :=
  (let* n := s_count in
   if Nat.eqb n 0 then s_add_all now seed_posts else ret tt)%work.

(** The module-level [with get_session() as s:] block. *)
Definition startup (eng : faults) (now : datetime) (db : table) : run unit :=
  get_session eng (seed now) db.

(** ** Responses *)

Inductive response : Type :=
  | Json (body : json) (status : Z)                 (* jsonify(body), status *)
  | Template (name : string) (posts : list Post).   (* render_template *)

(** The status the client sees: an exception that leaves a view function
    becomes Flask's 500 response. *)
Definition status_code (r : outcome response) : Z :=
  match r with
  | Return (Json _ status) => status
  | Return (Template _ _) => 200
  | Raise _ => 500
  end.

(** [{"error": msg}] *)
Definition error (msg : string) : json := JDict {[ "error" := JStr msg ]}.

Definition post_to_dict (p : Post) : json :=
  JDict {[ "id" := JInt (id p);
           "title" := JStr (title p);
           "author" := JStr (author p);
           "content" := JStr (content p);
           "created_at" := match created_at p with
                           | Some d => JStr (isoformat d)
                           | None => JNull
                           end ]}.

(** ** RESTful API *)

Definition and_then {A B} (o : outcome A) (k : A -> outcome B) : outcome B :=
  match o with
  | Return a => k a
  | Raise e => Raise e
  end.

(** [(data.get(k) or "").strip()] *)
Definition required_field (data : json) (k : string) : outcome string :=
  and_then (py_get data k) (fun v => py_strip (py_or v (JStr ""))).

(** The three assignments at the head of [api_create_post], in order. *)
Definition create_fields (data : json) : outcome (string * string * string) :=
  and_then (required_field data "title") (fun ti =>
  and_then (required_field data "author") (fun au =>
  and_then (required_field data "content") (fun co =>
  Return (ti, au, co)))).

Definition api_list_posts (eng : faults) (db : table) : run response :=
  get_session eng
    (let* posts := s_select_desc in
     ret (Json (JList (post_to_dict <$> posts)) 200))%work db.

Definition api_get_post (eng : faults) (post_id : Z) (db : table)
    : run response :=
  get_session eng
    (let* p := s_get post_id in
     match p with
     | None => ret (Json (error "Not found") 404)
     | Some p => ret (Json (post_to_dict p) 200)
     end)%work db.

Definition api_create_post (eng : faults) (now : datetime)
    (body : option json) (db : table) : run response :=
  let data := get_json_or_empty body in
  match create_fields data with
  | Raise e => no_session (Raise e) db
  | Return (ti, au, co) =>
      if blank ti || blank au || blank co then
        no_session
          (Return (Json (error "title, author, content are required") 400)) db
      else
        get_session eng
          (let* p := s_add_flush now ti au co in
           ret (Json (post_to_dict p) 201))%work db
  end.

Definition api_delete_post (eng : faults) (post_id : Z) (db : table)
    : run response :=
  get_session eng
    (let* p := s_get post_id in
     match p with
     | None => ret (Json (error "Not found") 404)
     | Some p =>
         let* _ := s_delete p in
         ret (Json (JDict {[ "status" := JStr "deleted";
                             "id" := JInt post_id ]}) 200)
     end)%work db.

(** [GET /]: the list page gets the same query result as the API. *)
Definition index (eng : faults) (db : table) : run response :=
  get_session eng
    (let* posts := s_select_desc in
     ret (Template "index.html" posts))%work db.

Section Update.

(** Python's [repr] of a float, a list or a dict, which [str] returns for
    them; the runtime's, and left open here. *)
Variable py_repr : json -> string.

(** [str(v)] *)
Definition py_str (v : json) : string :=
  match v with
  | JNull => "None"
  | JBool true => "True"
  | JBool false => "False"
  | JInt z => NilZero.string_of_int (Z.to_int z)
  | JStr s => s
  | JFloat _ | JList _ | JDict _ => py_repr v
  end.

(** One [if k in data:] block of [api_update_post]. [inl r]: the handler
    returns [r] from inside the scope; [inr p]: it goes on, with [p] as
    assigned so far. *)
Definition update_field (k : string) (set : string -> Post -> Post)
    (data : json) (p : Post) : work (response + Post) :=
  (let* present := lift (py_in k data) in
   if (present : bool) then
     let* v := lift (py_getitem data k) in
     if blank (strip (py_str v)) then
       ret (inl (Json (error (k ++ " cannot be empty")) 400))
     else
       let p' := set (strip (py_str v)) p in
       let* _ := s_assign p' in
       ret (inr p')
   else ret (inr p))%work.

Definition api_update_post (eng : faults) (post_id : Z)
    (body : option json) (db : table) : run response :=
  let data := get_json_or_empty body in
  get_session eng
    (let* found := s_get post_id in
     match found with
     | None => ret (Json (error "Not found") 404)
     | Some p =>
         let* r := update_field "title" set_title data p in
         match r with
         | inl resp => ret resp
         | inr p =>
             let* r := update_field "author" set_author data p in
             match r with
             | inl resp => ret resp
             | inr p =>
                 let* r := update_field "content" set_content data p in
                 match r with
                 | inl resp => ret resp
                 | inr p => ret (Json (post_to_dict p) 200)
                 end
             end
         end
     end)%work db.

(** ** Routing *)

Inductive request : Type :=
  | GET_api_posts
  | GET_api_post (post_id : Z)
  | POST_api_posts (body : option json)
  | PUT_api_post (post_id : Z) (body : option json)
  | DELETE_api_post (post_id : Z)
  | GET_index.

(** Flask's routing of one request, received at time [now]. *)
Definition dispatch (eng : faults) (now : datetime) (req : request)
    (db : table) : run response :=
  match req with
  | GET_api_posts => api_list_posts eng db
  | GET_api_post post_id => api_get_post eng post_id db
  | POST_api_posts body => api_create_post eng now body db
  | PUT_api_post post_id body => api_update_post eng post_id body db
  | DELETE_api_post post_id => api_delete_post eng post_id db
  | GET_index => index eng db
  end.

(** The table after serving the requests in order. *)
Fixpoint serve (eng : faults) (reqs : list (datetime * request))
    (db : table) : table :=
  match reqs with
  | [] => db
  | (now, req) :: rest => serve eng rest (stored (dispatch eng now req db))
  end.

End Update.

(** ** HTML pages *)

(** What leaves a view function as an exception: werkzeug's [NotFound],
    which [abort(404)] raises, or an exception of the embedding. Both are
    instances of [Exception]. *)
Inductive raised : Type :=
  | NotFound
  | Exc (e : exn).

(** The body of a [with get_session() as s:] block of a view that may
    [abort]. *)
Definition view (A : Type) : Type := table -> (A + raised) * table.

Definition vret {A} (a : A) : view A := fun t => (inl a, t).

(** [abort(404)] *)
Definition abort_404 {A} : view A := fun t => (inr NotFound, t).

Definition vbind {A B} (m : view A) (k : A -> view B) : view B :=
  fun t => match m t with
           | (inl a, t') => k a t'
           | (inr e, t') => (inr e, t')
           end.

(** A session method, used in a view. *)
Definition of_outcome {A} (o : outcome A) : A + raised :=
  match o with
  | Return a => inl a
  | Raise e => inr (Exc e)
  end.

Definition of_work {A} (w : work A) : view A :=
  fun t => (of_outcome (fst (w t)), snd (w t)).

Declare Scope view_scope.
Delimit Scope view_scope with view.
Notation "'let*' x := m 'in' k" := (vbind m (fun x => k))
  (at level 10, x name, m at level 100, k at level 200) : view_scope.

(** What one view leaves behind, as [run] for the API. *)
Record vrun (A : Type) : Type := mkVrun {
  vresult : A + raised;
  vstored : table;
  vcalls : list call
}.
Arguments mkVrun {A} _ _ _.
Arguments vresult {A} _.
Arguments vstored {A} _.
Arguments vcalls {A} _.

Definition of_run {A} (r : run A) : vrun A :=
  mkVrun (of_outcome (result r)) (stored r) (calls r).

(** [get_session] around a view body: the same generator, with [NotFound]
    among the exceptions its [except Exception] clause catches. *)
Definition on_view_exception {A} (eng : faults) (db : table) (e : raised)
    (before : list call) : vrun A :=
  match rollback_fails eng with
  | None => mkVrun (inr e) db (before ++ [Rollback; Close])
  | Some e' => mkVrun (inr (Exc e')) db (before ++ [Rollback; Close])
  end.

Definition get_session_view {A} (eng : faults) (body : view A) (db : table)
    : vrun A :=
  match body db with
  | (inl a, t') =>
      match commit_fails eng with
      | None => mkVrun (inl a) t' [Commit; Close]
      | Some e => on_view_exception eng db (Exc e) [Commit]
      end
  | (inr e, _) => on_view_exception eng db e []
  end.

(** [request.form]: the first value of each field. *)
Abbreviation form := (gmap string string).

(** [request.form.get(k, "").strip()] *)
Definition form_get (f : form) (k : string) : string :=
  strip (default "" (f !! k)).

(** A keyword argument of [render_template]. *)
Inductive ctxval : Type :=
  | CStr (s : string)
  | CPost (p : Post)
  | CDict (d : gmap string json).

Inductive html : Type :=
  | Render (template : string) (ctx : gmap string ctxval)
  | Redirect (location : string).

(** [url_for("post_detail_page", post_id=k)] and [url_for("index")] *)
Definition url_for_post_detail_page (k : Z) : string :=
  "/posts/" ++ NilZero.string_of_int (Z.to_int k).

Definition url_for_index : string := "/".

(** The status the client sees. *)
Definition page_status (r : html + raised) : Z :=
  match r with
  | inl (Render _ _) => 200
  | inl (Redirect _) => 302
  | inr NotFound => 404
  | inr (Exc _) => 500
  end.

(** [GET /posts/new] *)
Definition new_post_page : html := Render "new_post.html" ∅.

(** [POST /posts/new] *)
Definition new_post_action (eng : faults) (now : datetime) (f : form)
    (db : table) : vrun html :=
  let title := form_get f "title" in
  let author := form_get f "author" in
  let content := form_get f "content" in
  if blank title || blank author || blank content then
    mkVrun
      (inl (Render "new_post.html"
              {[ "error" := CStr "All fields are required.";
                 "title" := CStr title;
                 "author" := CStr author;
                 "content" := CStr content ]})) db []
  else
    get_session_view eng
      (let* p := of_work (s_add_flush now title author content) in
       vret (Redirect (url_for_post_detail_page (id p))))%view db.

(** [GET /posts/<int:post_id>] *)
Definition post_detail_page (eng : faults) (post_id : Z) (db : table)
    : vrun html :=
  get_session_view eng
    (let* p := of_work (s_get post_id) in
     match p with
     | None => abort_404
     | Some p => vret (Render "post_detail.html" {[ "post" := CPost p ]})
     end)%view db.

(** [GET /posts/<int:post_id>/edit] *)
Definition edit_post_page (eng : faults) (post_id : Z) (db : table)
    : vrun html :=
  get_session_view eng
    (let* p := of_work (s_get post_id) in
     match p with
     | None => abort_404
     | Some p => vret (Render "edit_post.html" {[ "post" := CPost p ]})
     end)%view db.

(** [POST /posts/<int:post_id>/edit] *)
Definition edit_post_action (eng : faults) (post_id : Z) (f : form)
    (db : table) : vrun html :=
  let title := form_get f "title" in
  let author := form_get f "author" in
  let content := form_get f "content" in
  if blank title || blank author || blank content then
    mkVrun
      (inl (Render "edit_post.html"
              {[ "error" := CStr "All fields are required.";
                 "post" := CDict {[ "id" := JInt post_id;
                                    "title" := JStr title;
                                    "author" := JStr author;
                                    "content" := JStr content ]} ]})) db []
  else
    get_session_view eng
      (let* p := of_work (s_get post_id) in
       match p with
       | None => abort_404
       | Some p =>
           let p1 := set_title title p in
           let* _ := of_work (s_assign p1) in
           let p2 := set_author author p1 in
           let* _ := of_work (s_assign p2) in
           let p3 := set_content content p2 in
           let* _ := of_work (s_assign p3) in
           vret (Redirect (url_for_post_detail_page post_id))
       end)%view db.

(** [POST /posts/<int:post_id>/delete]: the redirect is built after the
    scope, when the scope did not raise. *)
Definition delete_post_action (eng : faults) (post_id : Z) (db : table)
    : vrun html :=
  let scope :=
    get_session_view eng
      (let* p := of_work (s_get post_id) in
       match p with
       | Some p => of_work (s_delete p)
       | None => vret tt
       end)%view db in
  match vresult scope with
  | inl _ => mkVrun (inl (Redirect url_for_index)) (vstored scope) (vcalls scope)
  | inr e => mkVrun (inr e) (vstored scope) (vcalls scope)
  end.

(** The routes of the HTML surface other than the list page. *)
Inductive page_request : Type :=
  | GET_posts_new
  | POST_posts_new (f : form)
  | GET_post (post_id : Z)
  | GET_post_edit (post_id : Z)
  | POST_post_edit (post_id : Z) (f : form)
  | POST_post_delete (post_id : Z).

Definition dispatch_page (eng : faults) (now : datetime) (req : page_request)
    (db : table) : vrun html :=
  match req with
  | GET_posts_new => mkVrun (inl new_post_page) db []
  | POST_posts_new f => new_post_action eng now f db
  | GET_post post_id => post_detail_page eng post_id db
  | GET_post_edit post_id => edit_post_page eng post_id db
  | POST_post_edit post_id f => edit_post_action eng post_id f db
  | POST_post_delete post_id => delete_post_action eng post_id db
  end.

(** ** The process: start-up, then requests *)

(** A request to any route of the program. *)
Inductive route : Type :=
  | Api (req : request)
  | Page (req : page_request).

Section Process.

Variable py_repr : json -> string.

(** The table one request leaves. *)
Definition route_stored (eng : faults) (now : datetime) (r : route)
    (db : table) : table :=
  match r with
  | Api req => stored (dispatch py_repr eng now req db)
  | Page req => vstored (dispatch_page eng now req db)
  end.

(** The table after serving the requests, of the API and of the pages, in
    order. *)
Fixpoint serve_routes (eng : faults) (reqs : list (datetime * route))
    (db : table) : table :=
  match reqs with
  | [] => db
  | (now, r) :: rest => serve_routes eng rest (route_stored eng now r db)
  end.

(** One run of the program: the module body (the seed block) once, then
    the requests; when the seed block raises, the module fails to load and
    nothing is served. *)
Definition process (eng : faults) (boot : datetime)
    (reqs : list (datetime * route)) (db : table) : option table :=
  let up := startup eng boot db in
  match result up with
  | Return _ => Some (serve_routes eng reqs (stored up))
  | Raise _ => None
  end.

End Process.

(** ** Vocabulary of the specification *)

(** Reading a key of a JSON response body. *)
Definition body_field (r : outcome response) (k : string) : option json :=
  match r with
  | Return (Json (JDict d) _) => d !! k
  | _ => None
  end.

(** The fields a request body carries: those of the object the handlers
    read, and none when the body is no object. *)
Definition fields_of (body : option json) : gmap string json :=
  match get_json_or_empty body with
  | JDict d => d
  | _ => ∅
  end.

(** The three fields a client may send. *)
Definition post_fields : list string := ["title"; "author"; "content"].

(** A field that is missing, or blank once trimmed, or one of the values
    Python takes for false (null, 0, false, and the empty containers). *)
Definition missing_or_blank (v : option json) : bool :=
  match v with
  | None => true
  | Some (JStr s) => blank (strip s)
  | Some v => negb (truthy v)
  end.

(** A field that is missing, a string, or one of the values Python takes
    for false. *)
Definition str_or_falsy (v : option json) : bool :=
  match v with
  | None => true
  | Some (JStr _) => true
  | Some v => negb (truthy v)
  end.

(** What such a field is read as: the trimmed string, or the empty string. *)
Definition read_field (v : option json) : string :=
  match v with
  | Some (JStr s) => strip s
  | _ => ""
  end.

(** The values of a field that [api_create_post] takes for a missing one in
    C10: null, 0 and false. *)
Definition null_zero_false : list json := [JNull; JInt 0; JBool false].

(** The two routes that create a post. *)
Definition creates (r : route) : bool :=
  match r with
  | Api (POST_api_posts _) => true
  | Page (POST_posts_new _) => true
  | _ => false
  end.

(** The table the seed block stores in an empty one, at time [now]. *)
Definition seeded (now : datetime) : table :=
  {[ 1 := mkRow "Hello SQLAlchemy" "Alice"
            ("This is your first DB-backed post." ++ String "010"
               "It persists in SQLite.") (Some now);
     2 := mkRow "Edit & Delete" "Bob"
            "You can edit or delete this post from the UI below." (Some now) ]}.

Section Patch.

Variable py_repr : json -> string.

(** What the specification expects of a column after an update: the
    trimmed [str] of the field when the body has it, the old value
    otherwise. *)
Definition patch (v : option json) (old : string) : string :=
  match v with
  | Some v => strip (py_str py_repr v)
  | None => old
  end.

(** The row the specification expects after an update with the fields
    [f]: only title, author and content can change. *)
Definition patched_row (f : gmap string json) (r : Row) : Row :=
  mkRow (patch (f !! "title") (row_title r))
    (patch (f !! "author") (row_author r))
    (patch (f !! "content") (row_content r))
    (row_created_at r).

End Patch.

(** A string of whitespace only, the empty string included. *)
Fixpoint all_space (s : string) : bool :=
  match s with
  | EmptyString => true
  | String c r => isspace c && all_space r
  end.

(** A row as the data model wants it: title, author and content not empty,
    [created_at] set. *)
Definition row_ok (r : Row) : Prop :=
  row_title r ≠ "" ∧ row_author r ≠ "" ∧ row_content r ≠ ""
  ∧ row_created_at r ≠ None.

Definition table_ok (t : table) : Prop :=
  ∀ k r, t !! k = Some r → row_ok r.

(** A value the handlers write into a column: not empty, and trimmed. *)
Definition written (s : string) : Prop := s ≠ "" ∧ strip s = s.

(** A row whose title, author and content have no whitespace at either
    end. *)
Definition row_trimmed (r : Row) : Prop :=
  strip (row_title r) = row_title r ∧ strip (row_author r) = row_author r
  ∧ strip (row_content r) = row_content r.

Definition table_trimmed (t : table) : Prop :=
  ∀ k r, t !! k = Some r → row_trimmed r.

(** A row that an update may have made of the row [r]: the same
    [created_at], and each of title, author and content the old value or a
    written one. *)
Definition patched_from (r r' : Row) : Prop :=
  row_created_at r' = row_created_at r
  ∧ (row_title r' = row_title r ∨ written (row_title r'))
  ∧ (row_author r' = row_author r ∨ written (row_author r'))
  ∧ (row_content r' = row_content r ∨ written (row_content r')).

(** The state of [api_update_post] between two of its blocks, for the post
    [post_id] whose row was [r]: the post as assigned so far, and the working
    copy, which holds it. *)
Definition assigned (post_id : Z) (r : Row) (db : table) (p : Post)
    (t : table) : Prop :=
  id p = post_id ∧ patched_from r (row_of p)
  ∧ t = <[post_id := row_of p]> db.

(** What one request can do to the table. *)
Inductive effect (db : table) : table -> Prop :=
  | Unchanged : effect db db
  | Inserted (r : Row) :
      row_ok r -> row_trimmed r -> effect db (<[next_rowid db := r]> db)
  | Updated (k : Z) (r r' : Row) :
      db !! k = Some r -> patched_from r r' -> effect db (<[k := r']> db)
  | Deleted (k : Z) : effect db (delete k db).

(** The form a browser posts from an edit page that shows the row [r]. *)
Definition form_of_row (r : Row) : form :=
  {[ "title" := row_title r; "author" := row_author r;
     "content" := row_content r ]}.

(** The JSON object with the fields of a form. *)
Definition json_of_form (f : form) : option json := Some (JDict (JStr <$> f)).

(** ** Worked inputs *)

Definition sample_time : datetime := mkDatetime 2024 1 2 3 4 5.

Definition sample_table : table :=
  {[ 1 := mkRow "A" "B" "C" (Some sample_time) ]}.

Definition sample_post : Post := load 1 (mkRow "A" "B" "C" (Some sample_time)).

(** An engine whose commit raises and whose rollback goes through. *)
Definition disk_full : faults :=
  mkFaults (Some (StorageError "disk full")) None.

Definition repr_stub (v : json) : string := "<repr>".

Definition obj (d : gmap string json) : option json := Some (JDict d).

(** * Properties *)

(** ** Strings *)

Lemma blank_true (s : string) : blank s = true ↔ s = "".
Proof. unfold blank. apply String.eqb_eq. Qed.

Lemma blank_false (s : string) : blank s = false ↔ s ≠ "".
Proof. unfold blank. apply String.eqb_neq. Qed.

(** ** The table *)

Lemma max_key_bounds (t : table) :
  match max_key t with
  | None => t = ∅
  | Some m => ∀ k, is_Some (t !! k) → k ≤ m
  end.
Proof.
  unfold max_key.
  apply (map_fold_weak_ind
           (fun acc (m : table) =>
              match acc with
              | None => m = ∅
              | Some hi => ∀ k, is_Some (m !! k) → k ≤ hi
              end)); [done |].
  intros i x m acc Hfresh IH k [y Hk].
  destruct (decide (i = k)) as [-> | Hne].
  - destruct acc; lia.
  - rewrite lookup_insert_ne in Hk by done.
    destruct acc as [hi |].
    + specialize (IH k (ex_intro _ y Hk)). lia.
    + subst m. by rewrite lookup_empty in Hk.
Qed.

(** The INSERT never reuses a key in use. *)
Lemma next_rowid_fresh (t : table) : t !! next_rowid t = None.
Proof.
  unfold next_rowid. pose proof (max_key_bounds t) as H.
  destruct (max_key t) as [m |].
  - destruct (t !! (m + 1)) as [r |] eqn:E; [| done].
    specialize (H (m + 1) (ex_intro _ r E)). lia.
  - subst t. apply lookup_empty.
Qed.

(** ** Looking a post up *)

Lemma s_get_found (k : Z) (r : Row) (t : table) :
  t !! k = Some r → s_get k t = (Return (Some (load k r)), t).
Proof. intros H. unfold s_get. by rewrite H. Qed.

Lemma s_get_missing (k : Z) (t : table) :
  t !! k = None → fits_int64 k = true → s_get k t = (Return None, t).
Proof. intros H Hk. unfold s_get. by rewrite H, Hk. Qed.

Lemma s_get_overflow (k : Z) (t : table) :
  t !! k = None → fits_int64 k = false →
  s_get k t = (Raise OverflowError, t).
Proof. intros H Hk. unfold s_get. by rewrite H, Hk. Qed.

Lemma s_get_read_only (k : Z) (t : table) : snd (s_get k t) = t.
Proof. unfold s_get. by destruct (t !! k), (fits_int64 k). Qed.

(** What a lookup gives: the row, nothing, or the driver's error. *)
Lemma s_get_cases (k : Z) (t : table) :
  (∃ r, t !! k = Some r ∧ s_get k t = (Return (Some (load k r)), t))
  ∨ (t !! k = None ∧ s_get k t = (Return None, t))
  ∨ (t !! k = None ∧ s_get k t = (Raise OverflowError, t)).
Proof.
  unfold s_get. destruct (t !! k) as [r |]; [left; by exists r |].
  destruct (fits_int64 k); auto.
Qed.

(** ** The scoped session *)

Lemma get_session_healthy {A} (body : work A) (db : table) :
  get_session healthy body db =
  match body db with
  | (Return a, t') => mkRun (Return a) t' [Commit; Close]
  | (Raise e, _) => mkRun (Raise e) db [Rollback; Close]
  end.
Proof. unfold get_session. by destruct (body db) as [[a | e] t']. Qed.




(** ** Listing *)

#[local] Instance id_desc_total : Total id_desc.
Proof. intros p q. unfold id_desc. lia. Qed.

#[local] Instance id_desc_trans : Transitive id_desc.
Proof. intros p q r. unfold id_desc. lia. Qed.








(** ** Reading request bodies *)

Lemma get_json_or_empty_dict (d : gmap string json) :
  get_json_or_empty (Some (JDict d)) = JDict d.
Proof.
  unfold get_json_or_empty, py_or. simpl. case_bool_decide as Hsize; [| done].
  simpl. apply map_size_empty_inv in Hsize. by subst d.
Qed.

(** A string field of the body is read trimmed. *)
Lemma required_field_str (d : gmap string json) (k s : string) :
  d !! k = Some (JStr s) → required_field (JDict d) k = Return (strip s).
Proof.
  intros Hk. unfold required_field, py_get. rewrite Hk. simpl.
  unfold py_or. simpl. destruct (blank s) eqn:Hs; simpl; [| done].
  apply blank_true in Hs. by subst s.
Qed.

(** A missing field, and a field that is null, 0 or false, are read as the
    empty string. *)
Lemma required_field_missing (d : gmap string json) (k : string) :
  d !! k = None → required_field (JDict d) k = Return "".
Proof. intros Hk. unfold required_field, py_get. by rewrite Hk. Qed.

Lemma required_field_falsy (d : gmap string json) (k : string) (v : json) :
  d !! k = Some v → truthy v = false → required_field (JDict d) k = Return "".
Proof.
  intros Hk Hv. unfold required_field, py_get. rewrite Hk. simpl.
  unfold py_or. by rewrite Hv.
Qed.

(** ** Create *)

(** The handler on a body whose three fields are strings that are not blank
    once trimmed. *)
Lemma api_create_post_valid (now : datetime) (d : gmap string json)
    (ti au co : string) (db : table) :
  d !! "title" = Some (JStr ti) →
  d !! "author" = Some (JStr au) →
  d !! "content" = Some (JStr co) →
  strip ti ≠ "" → strip au ≠ "" → strip co ≠ "" →
  api_create_post healthy now (Some (JDict d)) db
  = mkRun
      (Return (Json (post_to_dict
                       (mkPost (next_rowid db) (strip ti) (strip au) (strip co)
                          (Some now))) 201))
      (<[next_rowid db := mkRow (strip ti) (strip au) (strip co) (Some now)]> db)
      [Commit; Close].
Proof.
  intros Hti Hau Hco Nti Nau Nco. unfold api_create_post.
  rewrite get_json_or_empty_dict. unfold create_fields.
  rewrite (required_field_str d "title" ti), (required_field_str d "author" au),
    (required_field_str d "content" co) by done.
  simpl. apply blank_false in Nti, Nau, Nco. rewrite Nti, Nau, Nco. simpl.
  by rewrite get_session_healthy.
Qed.

Lemma api_get_post_found (post_id : Z) (r : Row) (db : table) :
  db !! post_id = Some r →
  api_get_post healthy post_id db
  = mkRun (Return (Json (post_to_dict (load post_id r)) 200)) db
      [Commit; Close].
Proof.
  intros Hr. unfold api_get_post. rewrite get_session_healthy.
  unfold bind, s_get. by rewrite Hr.
Qed.

Lemma api_get_post_missing (post_id : Z) (db : table) :
  db !! post_id = None → fits_int64 post_id = true →
  api_get_post healthy post_id db
  = mkRun (Return (Json (error "Not found") 404)) db [Commit; Close].
Proof.
  intros Hr Hk. unfold api_get_post. rewrite get_session_healthy.
  unfold bind. by rewrite s_get_missing.
Qed.

Lemma api_get_post_overflow (post_id : Z) (db : table) :
  db !! post_id = None → fits_int64 post_id = false →
  api_get_post healthy post_id db
  = mkRun (Raise OverflowError) db [Rollback; Close].
Proof.
  intros Hr Hk. unfold api_get_post. rewrite get_session_healthy.
  unfold bind. by rewrite s_get_overflow.
Qed.

(** C2. For all strings [ti], [au], [co] that are not blank once trimmed,
    [POST /api/posts] with them as title, author and content answers with an
    [id], and [GET /api/posts/{id}] on the table the create left answers 200
    with that [id], the three values trimmed, and a [created_at] that is a
    timestamp string (not null). *)
Theorem create_then_get (now : datetime) (d : gmap string json)
    (ti au co : string) (db : table) :
  d !! "title" = Some (JStr ti) →
  d !! "author" = Some (JStr au) →
  d !! "content" = Some (JStr co) →
  strip ti ≠ "" → strip au ≠ "" → strip co ≠ "" →
  ∃ new_id : Z,
    body_field (result (api_create_post healthy now (Some (JDict d)) db)) "id"
    = Some (JInt new_id)
    ∧ ∃ fetched : outcome response,
        result (api_get_post healthy new_id
                  (stored (api_create_post healthy now (Some (JDict d)) db)))
        = fetched
        ∧ status_code fetched = 200
        ∧ body_field fetched "id" = Some (JInt new_id)
        ∧ body_field fetched "title" = Some (JStr (strip ti))
        ∧ body_field fetched "author" = Some (JStr (strip au))
        ∧ body_field fetched "content" = Some (JStr (strip co))
        ∧ body_field fetched "created_at" = Some (JStr (isoformat now)).
Proof.
  intros Hti Hau Hco Nti Nau Nco.
  rewrite (api_create_post_valid now d ti au co db) by done. simpl.
  exists (next_rowid db). split; [done |].
  rewrite (api_get_post_found (next_rowid db)
             (mkRow (strip ti) (strip au) (strip co) (Some now)))
    by apply lookup_insert_eq.
  eexists. split; [reflexivity |]. by split_and!.
Qed.

Lemma create_then_get_witness :
  ∃ new_id : Z,
    body_field
      (result (api_create_post healthy sample_time
                 (obj {[ "title" := JStr " Hi "; "author" := JStr "Ann";
                         "content" := JStr "text " ]}) sample_table)) "id"
    = Some (JInt new_id)
    ∧ ∃ fetched : outcome response,
        result (api_get_post healthy new_id
                  (stored (api_create_post healthy sample_time
                             (obj {[ "title" := JStr " Hi ";
                                     "author" := JStr "Ann";
                                     "content" := JStr "text " ]})
                             sample_table)))
        = fetched
        ∧ status_code fetched = 200
        ∧ body_field fetched "id" = Some (JInt new_id)
        ∧ body_field fetched "title" = Some (JStr (strip " Hi "))
        ∧ body_field fetched "author" = Some (JStr (strip "Ann"))
        ∧ body_field fetched "content" = Some (JStr (strip "text "))
        ∧ body_field fetched "created_at"
          = Some (JStr (isoformat sample_time)).
Proof.
  apply (create_then_get sample_time
           {[ "title" := JStr " Hi "; "author" := JStr "Ann";
              "content" := JStr "text " ]} " Hi " "Ann" "text " sample_table);
    vm_compute; congruence.
Defined.

(** C4. For every [POST /api/posts] whose title, author and content are
    strings that are not blank once trimmed, the response has status 201 and
    its body carries the [id] the table assigned (a key that was not in use),
    [created_at] as a timestamp string (not null), and the trimmed title,
    author and content; the new row is what the scope committed. *)
Theorem create_answers_201_with_record (now : datetime)
    (d : gmap string json) (ti au co : string) (db : table) :
  d !! "title" = Some (JStr ti) →
  d !! "author" = Some (JStr au) →
  d !! "content" = Some (JStr co) →
  strip ti ≠ "" → strip au ≠ "" → strip co ≠ "" →
  ∃ created : run response,
    api_create_post healthy now (Some (JDict d)) db = created
    ∧ status_code (result created) = 201
    ∧ body_field (result created) "id" = Some (JInt (next_rowid db))
    ∧ db !! next_rowid db = None
    ∧ body_field (result created) "title" = Some (JStr (strip ti))
    ∧ body_field (result created) "author" = Some (JStr (strip au))
    ∧ body_field (result created) "content" = Some (JStr (strip co))
    ∧ body_field (result created) "created_at" = Some (JStr (isoformat now))
    ∧ stored created
      = <[next_rowid db := mkRow (strip ti) (strip au) (strip co) (Some now)]> db
    ∧ calls created = [Commit; Close].
Proof.
  intros Hti Hau Hco Nti Nau Nco.
  rewrite (api_create_post_valid now d ti au co db) by done.
  eexists. split; [reflexivity |]. simpl.
  split_and!; try done. apply next_rowid_fresh.
Qed.

(** The scenario of the specification: on an empty table the first post gets
    [id] 1. *)
Lemma create_answers_201_with_record_witness :
  ∃ created : run response,
    api_create_post healthy sample_time
      (obj {[ "title" := JStr "A"; "author" := JStr "B";
              "content" := JStr "C" ]}) ∅ = created
    ∧ status_code (result created) = 201
    ∧ body_field (result created) "id" = Some (JInt (next_rowid ∅))
    ∧ (∅ : table) !! next_rowid ∅ = None
    ∧ body_field (result created) "title" = Some (JStr (strip "A"))
    ∧ body_field (result created) "author" = Some (JStr (strip "B"))
    ∧ body_field (result created) "content" = Some (JStr (strip "C"))
    ∧ body_field (result created) "created_at"
      = Some (JStr (isoformat sample_time))
    ∧ stored created
      = <[next_rowid ∅ := mkRow (strip "A") (strip "B") (strip "C")
                            (Some sample_time)]> ∅
    ∧ calls created = [Commit; Close].
Proof.
  apply (create_answers_201_with_record sample_time
           {[ "title" := JStr "A"; "author" := JStr "B";
              "content" := JStr "C" ]} "A" "B" "C" ∅);
    vm_compute; congruence.
Defined.

(** ** Delete *)

Lemma api_delete_post_found (post_id : Z) (r : Row) (db : table) :
  db !! post_id = Some r →
  api_delete_post healthy post_id db
  = mkRun (Return (Json (JDict {[ "status" := JStr "deleted";
                                  "id" := JInt post_id ]}) 200))
      (delete post_id db) [Commit; Close].
Proof.
  intros Hr. unfold api_delete_post. rewrite get_session_healthy.
  unfold bind, s_get. by rewrite Hr.
Qed.

Lemma api_delete_post_missing (post_id : Z) (db : table) :
  db !! post_id = None → fits_int64 post_id = true →
  api_delete_post healthy post_id db
  = mkRun (Return (Json (error "Not found") 404)) db [Commit; Close].
Proof.
  intros Hr Hk. unfold api_delete_post. rewrite get_session_healthy.
  unfold bind. by rewrite s_get_missing.
Qed.

Lemma api_delete_post_overflow (post_id : Z) (db : table) :
  db !! post_id = None → fits_int64 post_id = false →
  api_delete_post healthy post_id db
  = mkRun (Raise OverflowError) db [Rollback; Close].
Proof.
  intros Hr Hk. unfold api_delete_post. rewrite get_session_healthy.
  unfold bind. by rewrite s_get_overflow.
Qed.




(** ** Start-up seeding *)

Lemma get_session_stored {A} (eng : faults) (body : work A) (db : table) :
  stored (get_session eng body db) = db
  ∨ ∃ a, body db = (Return a, stored (get_session eng body db)).
Proof.
  unfold get_session, on_exception.
  destruct (body db) as [[a | e] t'], (commit_fails eng),
    (rollback_fails eng); simpl; eauto.
Qed.

(** A scope whose body leaves the working copy as it found it stores what
    was stored before. *)
Lemma get_session_read_only {A} (eng : faults) (body : work A) (db : table) :
  (∀ t, snd (body t) = t) → stored (get_session eng body db) = db.
Proof.
  intros Hro. destruct (get_session_stored eng body db) as [H | [a H]];
    [done |].
  specialize (Hro db). rewrite H in Hro. done.
Qed.

Lemma startup_nonempty (eng : faults) (now : datetime) (db : table) :
  db ≠ ∅ → stored (startup eng now db) = db.
Proof.
  intros Hne. unfold startup.
  destruct (get_session_stored eng (seed now) db) as [H | [a H]]; [done |].
  unfold seed, bind, s_count in H.
  destruct (Nat.eqb (size db) 0) eqn:Hsize.
  - apply Nat.eqb_eq, map_size_empty_iff in Hsize. done.
  - unfold ret in H. by injection H.
Qed.

(** Either the scope stored nothing new, or its body returned and what it
    left is what is stored. *)
Ltac scope_cases H :=
  match goal with
  | |- context [get_session ?eng ?b ?db] =>
      let a := fresh "a" in
      destruct (get_session_stored eng b db) as [H | [a H]];
      [| set (stored (get_session eng b db)) in * ]
  end.

(** ** The scoped session around a view *)

Lemma get_session_view_healthy {A} (body : view A) (db : table) :
  get_session_view healthy body db =
  match body db with
  | (inl a, t') => mkVrun (inl a) t' [Commit; Close]
  | (inr e, _) => mkVrun (inr e) db [Rollback; Close]
  end.
Proof. unfold get_session_view. by destruct (body db) as [[a | e] t']. Qed.

(** On a body that cannot abort, the scope of a view is the scope of the
    API. *)
Lemma get_session_view_of_work {A} (eng : faults) (body : work A)
    (db : table) :
  get_session_view eng (of_work body) db = of_run (get_session eng body db).
Proof.
  unfold get_session_view, get_session, of_work, of_run, on_view_exception,
    on_exception.
  destruct (body db) as [[a | e] t']; simpl;
    destruct (commit_fails eng), (rollback_fails eng); done.
Qed.

Lemma get_session_view_stored {A} (eng : faults) (body : view A)
    (db : table) :
  vstored (get_session_view eng body db) = db
  ∨ ∃ a, body db = (inl a, vstored (get_session_view eng body db)).
Proof.
  unfold get_session_view, on_view_exception.
  destruct (body db) as [[a | e] t'], (commit_fails eng),
    (rollback_fails eng); simpl; eauto.
Qed.

Lemma get_session_view_raised {A} (eng : faults) (body : view A)
    (db : table) (e : raised) :
  vresult (get_session_view eng body db) = inr e →
  vstored (get_session_view eng body db) = db.
Proof.
  unfold get_session_view, on_view_exception.
  destruct (body db) as [[a | e'] t'], (commit_fails eng),
    (rollback_fails eng); simpl; done.
Qed.

Lemma get_session_raised {A} (eng : faults) (body : work A) (db : table)
    (e : exn) :
  result (get_session eng body db) = Raise e →
  stored (get_session eng body db) = db.
Proof.
  unfold get_session, on_exception.
  destruct (body db) as [[a | e'] t'], (commit_fails eng),
    (rollback_fails eng); simpl; done.
Qed.

Lemma get_session_view_read_only {A} (eng : faults) (body : view A)
    (db : table) :
  (∀ t, snd (body t) = t) → vstored (get_session_view eng body db) = db.
Proof.
  intros Hro. destruct (get_session_view_stored eng body db) as [H | [a H]];
    [done |].
  specialize (Hro db). rewrite H in Hro. done.
Qed.

(** As [scope_cases], for a view. *)
Ltac view_cases H :=
  match goal with
  | |- context [get_session_view ?eng ?b ?db] =>
      let a := fresh "a" in
      destruct (get_session_view_stored eng b db) as [H | [a H]];
      [| set (vstored (get_session_view eng b db)) in * ]
  end.

(** ** No handler seeds *)

(** A view body that looks a post up and then writes nothing. *)
Lemma lookup_view_read_only {A} (post_id : Z) (k : option Post → view A)
    (t : table) :
  (∀ p t', snd (k p t') = t') →
  snd (vbind (of_work (s_get post_id)) k t) = t.
Proof.
  intros Hk. unfold vbind, of_work.
  pose proof (s_get_read_only post_id t) as Hget.
  destruct (s_get post_id t) as [[p | e] t']; simpl in *; subst t'; [| done].
  apply Hk.
Qed.

(** On an empty table every request of the API leaves the table empty,
    except a create, which leaves its one row. *)
Lemma dispatch_empty (py_repr : json → string) (eng : faults)
    (now : datetime) (req : request) :
  stored (dispatch py_repr eng now req ∅) = ∅
  ∨ ∃ body, req = POST_api_posts body
            ∧ size (stored (dispatch py_repr eng now req ∅)) = 1%nat.
Proof.
  destruct req as [| post_id | body | post_id body | post_id |]; simpl.
  - left. by apply get_session_read_only.
  - left. apply get_session_read_only. intros t. unfold bind.
    pose proof (s_get_read_only post_id t) as Hget.
    by destruct (s_get post_id t) as [[[p |] | e] t']; simpl in *; subst t'.
  - unfold api_create_post.
    destruct (create_fields (get_json_or_empty body)) as [[[ti au] co] | e];
      [| by left].
    destruct (blank ti || blank au || blank co); [by left |].
    scope_cases H; [by left |].
    right. exists body. split; [done |].
    unfold bind, s_add_flush, ret in H. injection H as _ Hstored.
    rewrite <- Hstored. rewrite map_size_insert_None by apply lookup_empty.
    by rewrite map_size_empty.
  - left. unfold api_update_post.
    scope_cases H; [done |].
    unfold bind, s_get in H. rewrite lookup_empty in H.
    destruct (fits_int64 post_id); simpl in H; [| done].
    unfold ret in H. by injection H.
  - left. unfold api_delete_post.
    scope_cases H; [done |].
    unfold bind, s_get in H. rewrite lookup_empty in H.
    destruct (fits_int64 post_id); simpl in H; [| done].
    unfold ret in H. by injection H.
  - left. by apply get_session_read_only.
Qed.

(** The same for the pages: only the form of [/posts/new] leaves a row. *)
Lemma dispatch_page_empty (eng : faults) (now : datetime)
    (req : page_request) :
  vstored (dispatch_page eng now req ∅) = ∅
  ∨ ∃ f, req = POST_posts_new f
         ∧ size (vstored (dispatch_page eng now req ∅)) = 1%nat.
Proof.
  destruct req as [| f | post_id | post_id | post_id f | post_id]; simpl.
  - by left.
  - unfold new_post_action.
    destruct (blank _ || blank _ || blank _); [by left |].
    view_cases H; [by left |].
    right. exists f. split; [done |].
    unfold vbind, of_work, s_add_flush, vret in H. simpl in H.
    injection H as _ Hstored.
    rewrite <- Hstored. rewrite map_size_insert_None by apply lookup_empty.
    by rewrite map_size_empty.
  - left. apply get_session_view_read_only. intros t.
    apply lookup_view_read_only. by intros [p |] t'.
  - left. apply get_session_view_read_only. intros t.
    apply lookup_view_read_only. by intros [p |] t'.
  - left. unfold edit_post_action.
    destruct (blank _ || blank _ || blank _); [done |].
    view_cases H; [done |].
    unfold vbind, of_work, s_get in H. rewrite lookup_empty in H.
    destruct (fits_int64 post_id); simpl in H; done.
  - left. unfold delete_post_action.
    assert (vstored (get_session_view eng
              (vbind (of_work (s_get post_id))
                 (fun p => match p with
                           | Some p => of_work (s_delete p)
                           | None => vret tt
                           end)) ∅) = ∅) as Hscope.
    { view_cases H; [done |].
      unfold vbind, of_work, s_get in H. rewrite lookup_empty in H.
      destruct (fits_int64 post_id); simpl in H; [| done].
      unfold vret in H. by injection H. }
    by destruct (vresult _).
Qed.

(** No route seeds: on an empty table every request, of the API or of the
    pages, leaves the table empty, except the two that create a post, which
    leave one row. *)
Lemma route_stored_empty (py_repr : json → string) (eng : faults)
    (now : datetime) (r : route) :
  route_stored py_repr eng now r ∅ = ∅
  ∨ (creates r = true ∧ size (route_stored py_repr eng now r ∅) = 1%nat).
Proof.
  destruct r as [req | req]; simpl.
  - destruct (dispatch_empty py_repr eng now req) as [H | (body & -> & H)];
      [by left | by right].
  - destruct (dispatch_page_empty eng now req) as [H | (f & -> & H)];
      [by left | by right].
Qed.

Lemma seeded_not_empty (now : datetime) : seeded now ≠ ∅.
Proof.
  intros Hempty. apply (f_equal size) in Hempty. vm_compute in Hempty. done.
Qed.

Lemma startup_healthy_returns (now : datetime) (db : table) :
  result (startup healthy now db) = Return tt.
Proof.
  unfold startup. rewrite get_session_healthy. unfold seed, bind, s_count.
  destruct (Nat.eqb (size db) 0); [| done].
  unfold seed_posts. simpl. done.
Qed.

(** C8. The seed block, run on an empty table, stores exactly two rows, the
    posts titled "Hello SQLAlchemy" and "Edit & Delete"; run on any table
    that is not empty it stores nothing new, so a second start-up on the
    seeded table adds none. It is no part of request handling: a request to
    any route, of the API or of the pages, on an empty table leaves it
    empty, unless it is one of the two creates, which leave one row; and
    serving requests that create nothing leaves an emptied table empty. A
    process started on the empty table serves its requests on the two
    seeded rows; a process started on a table that is not empty serves them
    on that table. *)
Theorem seed_if_empty_at_startup :
  (∀ now,
     startup healthy now ∅
     = mkRun (Return tt)
         {[ 1 := mkRow "Hello SQLAlchemy" "Alice"
                   ("This is your first DB-backed post." ++ String "010"
                      "It persists in SQLite.") (Some now);
            2 := mkRow "Edit & Delete" "Bob"
                   "You can edit or delete this post from the UI below."
                   (Some now) ]}
         [Commit; Close]
     ∧ size (stored (startup healthy now ∅)) = 2%nat
     ∧ (row_title <$> stored (startup healthy now ∅))
       = {[ 1 := "Hello SQLAlchemy"; 2 := "Edit & Delete" ]})
  ∧ (∀ eng now db, db ≠ ∅ → stored (startup eng now db) = db)
  ∧ (∀ now again,
       stored (startup healthy again (stored (startup healthy now ∅)))
       = stored (startup healthy now ∅))
  ∧ (∀ py_repr eng now r,
       route_stored py_repr eng now r ∅ = ∅
       ∨ (creates r = true
          ∧ size (route_stored py_repr eng now r ∅) = 1%nat))
  ∧ (∀ py_repr eng reqs,
       Forall (fun r => creates (snd r) = false) reqs →
       serve_routes py_repr eng reqs ∅ = ∅)
  ∧ (∀ py_repr boot reqs,
       process py_repr healthy boot reqs ∅
       = Some (serve_routes py_repr healthy reqs (seeded boot)))
  ∧ (∀ py_repr boot reqs db,
       db ≠ ∅ →
       process py_repr healthy boot reqs db
       = Some (serve_routes py_repr healthy reqs db)).
Proof.
  split_and!.
  - intros now. by split_and!; vm_compute.
  - apply startup_nonempty.
  - intros now again. apply startup_nonempty.
    intros Hempty. apply (f_equal size) in Hempty. vm_compute in Hempty.
    done.
  - apply route_stored_empty.
  - intros py_repr eng reqs. induction 1 as [| [now r] reqs Hr _ IH];
      [done |].
    simpl in *. destruct (route_stored_empty py_repr eng now r)
      as [-> | [Hc _]]; [exact IH | congruence].
  - intros py_repr boot reqs. unfold process.
    by rewrite startup_healthy_returns.
  - intros py_repr boot reqs db Hne. unfold process.
    by rewrite startup_healthy_returns, startup_nonempty.
Qed.

(** A restart on a table that holds a post, followed by the deletion of that
    post through the page and a listing: the start-up adds nothing, and the
    emptied table is not seeded again; and a first start, on the empty
    table, followed by the deletion of both seeded posts. *)
Lemma seed_if_empty_at_startup_witness :
  stored (startup healthy sample_time sample_table) = sample_table
  ∧ serve_routes repr_stub healthy
      [(sample_time, Api GET_api_posts); (sample_time, Page (GET_post 1))] ∅
    = ∅
  ∧ process repr_stub healthy sample_time
      [(sample_time, Page (POST_post_delete 1));
       (sample_time, Api GET_api_posts)] sample_table
    = Some ∅
  ∧ process repr_stub healthy sample_time
      [(sample_time, Api (DELETE_api_post 1));
       (sample_time, Page (POST_post_delete 2));
       (sample_time, Page (GET_post 1))] ∅
    = Some ∅.
Proof.
  pose proof seed_if_empty_at_startup
    as (_ & Hkeep & _ & _ & Hserve & Hfirst & Hrun).
  assert (sample_table ≠ ∅) as Hne.
  { intros H. apply (f_equal size) in H. vm_compute in H. discriminate. }
  split_and!.
  - by apply Hkeep.
  - apply (Hserve repr_stub healthy
             [(sample_time, Api GET_api_posts);
              (sample_time, Page (GET_post 1))]).
    repeat constructor.
  - rewrite Hrun by done. by vm_compute.
  - rewrite Hfirst. by vm_compute.
Defined.

(** ** Update *)

Section UpdateProperties.

Variable py_repr : json → string.

(** One block of the handler on a [dict]. *)
Lemma update_field_dict (k : string) (set : string → Post → Post)
    (d : gmap string json) (p : Post) (t : table) :
  update_field py_repr k set (JDict d) p t
  = match d !! k with
    | None => (Return (inr p), t)
    | Some v =>
        if blank (strip (py_str py_repr v)) then
          (Return (inl (Json (error (k ++ " cannot be empty")) 400)), t)
        else
          (Return (inr (set (strip (py_str py_repr v)) p)),
           <[id (set (strip (py_str py_repr v)) p)
             := row_of (set (strip (py_str py_repr v)) p)]> t)
    end.
Proof.
  unfold update_field, bind, lift, py_in, py_getitem.
  destruct (d !! k) as [v |]; simpl; [| done].
  by destruct (blank (strip (py_str py_repr v))).
Qed.

(** One block of the handler on a body that is no [dict]: it writes
    nothing, and either goes on or raises. *)
Lemma update_field_not_dict (k : string) (set : string → Post → Post)
    (data : json) (p : Post) (t : table) :
  (∀ d, data ≠ JDict d) →
  update_field py_repr k set data p t = (Return (inr p), t)
  ∨ update_field py_repr k set data p t = (Raise TypeError, t).
Proof.
  intros Hdata. unfold update_field, bind, lift.
  destruct data as [| b | z | f | s | l | d]; simpl; auto.
  - destruct (occurs_in k s); auto.
  - destruct (existsb _ l); auto.
  - by destruct (Hdata d).
Qed.

Lemma patched_row_empty (r : Row) : patched_row py_repr ∅ r = r.
Proof. by destruct r. Qed.

Ltac in_fields :=
  by repeat first [apply list_elem_of_here | apply list_elem_of_further].

(** One block of the handler on a field the hypothesis [Hok] makes
    acceptable when present. *)
Ltac present_field Hok k :=
  rewrite update_field_dict;
  let v := fresh "v" in
  let H := fresh "H" in
  destruct (_ !! k) as [v |] eqn:?;
  [ pose proof (Hok k v ltac:(in_fields) ltac:(done)) as H;
    apply blank_false in H; rewrite H
  | ]; simpl.

(** The handler on an object all of whose present fields pass the check:
    200, and the row is the old one with the present fields replaced. *)
Lemma api_update_post_dict (post_id : Z) (body : option json)
    (d : gmap string json) (db : table) (r : Row) :
  db !! post_id = Some r →
  get_json_or_empty body = JDict d →
  (∀ k v, k ∈ post_fields → d !! k = Some v →
          strip (py_str py_repr v) ≠ "") →
  api_update_post py_repr healthy post_id body db
  = mkRun
      (Return (Json (post_to_dict (load post_id (patched_row py_repr d r)))
                 200))
      (<[post_id := patched_row py_repr d r]> db) [Commit; Close].
Proof.
  intros Hr Hdata Hok. unfold api_update_post.
  rewrite Hdata, get_session_healthy.
  unfold bind at 1. unfold s_get. rewrite Hr. simpl.
  unfold bind, patched_row, patch.
  present_field Hok "title"; present_field Hok "author";
    present_field Hok "content";
    rewrite ?insert_insert_eq; destruct r; try done.
  all: by rewrite insert_id.
Qed.

(** The handler on a body that is no object: nothing is written; the
    answer is the record as it was, or a [TypeError]. *)
Lemma api_update_post_not_dict (post_id : Z) (body : option json)
    (db : table) (r : Row) :
  db !! post_id = Some r →
  (∀ d, get_json_or_empty body ≠ JDict d) →
  api_update_post py_repr healthy post_id body db
  = mkRun (Return (Json (post_to_dict (load post_id r)) 200)) db
      [Commit; Close]
  ∨ api_update_post py_repr healthy post_id body db
    = mkRun (Raise TypeError) db [Rollback; Close].
Proof.
  intros Hr Hdata.
  remember (api_update_post py_repr healthy post_id body db) as out eqn:E.
  unfold api_update_post in E. rewrite get_session_healthy in E.
  unfold bind, s_get in E. rewrite Hr in E. simpl in E.
  destruct (update_field_not_dict "title" set_title _
              (load post_id r) db Hdata) as [H | H];
    rewrite H in E; [| by right].
  destruct (update_field_not_dict "author" set_author _
              (load post_id r) db Hdata) as [H' | H'];
    rewrite H' in E; [| by right].
  destruct (update_field_not_dict "content" set_content _
              (load post_id r) db Hdata) as [H'' | H''];
    rewrite H'' in E; [by left | by right].
Qed.

(** A body that is no object is read as an object without fields, or as
    itself. *)
Lemma get_json_or_empty_not_dict (v : json) :
  (∀ d, v ≠ JDict d) →
  get_json_or_empty (Some v) = JDict ∅
  ∨ ∀ d, get_json_or_empty (Some v) ≠ JDict d.
Proof.
  intros Hv. unfold get_json_or_empty, py_or. simpl.
  destruct (truthy v); [| by left].
  right. exact Hv.
Qed.

(** C6. For every existing post and every [PUT /api/posts/{id}] whose body
    is an object whose present fields among title, author and content are
    all non-blank once coerced to a string and trimmed, the answer is 200
    with the updated record, and the table afterwards is the table before
    with the row of that post, under the same key, replaced by the row that
    has the trimmed value of each field present in the body, the old value of
    each field absent from it, and the old [created_at]; every other row is
    as before. With no body the answer is 200 with the record as it was and
    the table is unchanged; a body that is no object changes nothing
    either. *)
Theorem update_changes_present_fields_only (post_id : Z) (db : table)
    (r : Row) :
  db !! post_id = Some r →
  (∀ d : gmap string json,
     (∀ k v, k ∈ post_fields → d !! k = Some v →
             strip (py_str py_repr v) ≠ "") →
     api_update_post py_repr healthy post_id (Some (JDict d)) db
     = mkRun
         (Return
            (Json (post_to_dict
                     (mkPost post_id
                        (match d !! "title" with
                         | Some v => strip (py_str py_repr v)
                         | None => row_title r
                         end)
                        (match d !! "author" with
                         | Some v => strip (py_str py_repr v)
                         | None => row_author r
                         end)
                        (match d !! "content" with
                         | Some v => strip (py_str py_repr v)
                         | None => row_content r
                         end)
                        (row_created_at r))) 200))
         (<[post_id :=
              mkRow
                (match d !! "title" with
                 | Some v => strip (py_str py_repr v)
                 | None => row_title r
                 end)
                (match d !! "author" with
                 | Some v => strip (py_str py_repr v)
                 | None => row_author r
                 end)
                (match d !! "content" with
                 | Some v => strip (py_str py_repr v)
                 | None => row_content r
                 end)
                (row_created_at r)]> db)
         [Commit; Close]
     ∧ (∀ k, k ≠ post_id →
             stored (api_update_post py_repr healthy post_id
                       (Some (JDict d)) db) !! k
             = db !! k))
  ∧ api_update_post py_repr healthy post_id None db
    = mkRun (Return (Json (post_to_dict (load post_id r)) 200)) db
        [Commit; Close]
  ∧ (∀ v, (∀ d, v ≠ JDict d) →
          stored (api_update_post py_repr healthy post_id (Some v) db) = db).
Proof.
  intros Hr. split_and!.
  - intros d Hok.
    rewrite (api_update_post_dict post_id (Some (JDict d)) d db r)
      by (done || apply get_json_or_empty_dict).
    split; [done |].
    intros k Hk. simpl. by rewrite lookup_insert_ne.
  - rewrite (api_update_post_dict post_id None ∅ db r) by done.
    by rewrite patched_row_empty, insert_id.
  - intros v Hv. destruct (get_json_or_empty_not_dict v Hv) as [Hd | Hd].
    + rewrite (api_update_post_dict post_id (Some v) ∅ db r) by done.
      simpl. by rewrite patched_row_empty, insert_id.
    + by destruct (api_update_post_not_dict post_id (Some v) db r)
        as [-> | ->].
Qed.

End UpdateProperties.

(** On the sample table: a body with a title only, a body with a number as
    content, no body, and a body that is a list. *)
Lemma update_changes_present_fields_only_witness :
  api_update_post repr_stub healthy 1
    (Some (JDict {[ "title" := JStr " New " ]})) sample_table
  = mkRun
      (Return (Json (post_to_dict (mkPost 1 "New" "B" "C" (Some sample_time)))
                 200))
      {[ 1 := mkRow "New" "B" "C" (Some sample_time) ]} [Commit; Close]
  ∧ stored (api_update_post repr_stub healthy 1
              (Some (JDict {[ "content" := JStr "text "; "id" := JInt 7 ]}))
              sample_table)
    = {[ 1 := mkRow "A" "B" "text" (Some sample_time) ]}
  ∧ api_update_post repr_stub healthy 1 None sample_table
    = mkRun (Return (Json (post_to_dict sample_post) 200)) sample_table
        [Commit; Close]
  ∧ stored (api_update_post repr_stub healthy 1
              (Some (JList [JStr "title"])) sample_table)
    = sample_table.
Proof.
  destruct (update_changes_present_fields_only repr_stub 1 sample_table
              (mkRow "A" "B" "C" (Some sample_time)) eq_refl)
    as (Hdict & Hnone & Hother).
  split_and!.
  - destruct (Hdict {[ "title" := JStr " New " ]}) as [-> _].
    + intros k v Hk Hv. unfold post_fields in Hk. rewrite !elem_of_cons in Hk.
      destruct Hk as [-> | [-> | [-> | Hk]]]; vm_compute in Hv;
        [| discriminate | discriminate | by apply elem_of_nil in Hk].
      injection Hv as <-. vm_compute. discriminate.
    + vm_compute. reflexivity.
  - destruct (Hdict {[ "content" := JStr "text "; "id" := JInt 7 ]})
      as [-> _].
    + intros k v Hk Hv. unfold post_fields in Hk. rewrite !elem_of_cons in Hk.
      destruct Hk as [-> | [-> | [-> | Hk]]]; vm_compute in Hv;
        [discriminate | discriminate | | by apply elem_of_nil in Hk].
      injection Hv as <-. vm_compute. discriminate.
    + vm_compute. reflexivity.
  - exact Hnone.
  - apply Hother. intros d. discriminate.
Defined.

(** ** Rejected updates *)

Section RejectedUpdates.

Variable py_repr : json → string.

(** A body with a single field that is blank: 400, nothing written. *)
Lemma api_update_post_only_field_blank (post_id : Z) (k : string) (v : json)
    (db : table) (r : Row) :
  db !! post_id = Some r →
  k ∈ post_fields →
  strip (py_str py_repr v) = "" →
  api_update_post py_repr healthy post_id (obj {[ k := v ]}) db
  = mkRun (Return (Json (error (k ++ " cannot be empty")) 400)) db
      [Commit; Close].
Proof.
  intros Hr Hk Hv. apply blank_true in Hv. unfold api_update_post, obj.
  rewrite get_json_or_empty_dict, get_session_healthy.
  unfold bind at 1. unfold s_get. rewrite Hr. simpl. unfold bind.
  unfold post_fields in Hk. rewrite !elem_of_cons in Hk.
  destruct Hk as [-> | [-> | [-> | Hk]]]; [| | | by apply elem_of_nil in Hk].
  - rewrite update_field_dict, lookup_singleton_eq, Hv. done.
  - rewrite update_field_dict, lookup_singleton_ne by done.
    rewrite update_field_dict, lookup_singleton_eq, Hv. done.
  - rewrite update_field_dict, lookup_singleton_ne by done.
    rewrite update_field_dict, lookup_singleton_ne by done.
    rewrite update_field_dict, lookup_singleton_eq, Hv. done.
Qed.

(** An object with a blank field among those present is answered 400, with
    the message of the first blank field in the order title, author,
    content. *)
Lemma api_update_post_blank_400 (post_id : Z) (body : option json)
    (d : gmap string json) (db : table) (r : Row) :
  db !! post_id = Some r →
  get_json_or_empty body = JDict d →
  (∃ k v, k ∈ post_fields ∧ d !! k = Some v
          ∧ strip (py_str py_repr v) = "") →
  ∃ k t', k ∈ post_fields
          ∧ api_update_post py_repr healthy post_id body db
            = mkRun (Return (Json (error (k ++ " cannot be empty")) 400)) t'
                [Commit; Close].
Proof.
  intros Hr Hdata (k & v & Hk & Hv & Hblank). apply blank_true in Hblank.
  unfold api_update_post. rewrite Hdata, get_session_healthy.
  unfold bind at 1. unfold s_get. rewrite Hr. simpl. unfold bind.
  rewrite update_field_dict.
  destruct (d !! "title") as [vt |] eqn:Et;
    [destruct (blank (strip (py_str py_repr vt))) eqn:Bt |].
  1: { exists "title". eexists. split; [| done]. apply list_elem_of_here. }
  all: rewrite update_field_dict.
  all: destruct (d !! "author") as [va |] eqn:Ea;
    [destruct (blank (strip (py_str py_repr va))) eqn:Ba |].
  1, 4: exists "author"; eexists; split;
    [apply list_elem_of_further, list_elem_of_here | done].
  all: rewrite update_field_dict.
  all: destruct (d !! "content") as [vc |] eqn:Ec;
    [destruct (blank (strip (py_str py_repr vc))) eqn:Bc |].
  1, 4, 7, 10: exists "content"; eexists; split;
    [do 2 apply list_elem_of_further; apply list_elem_of_here | done].
  all: exfalso; unfold post_fields in Hk; rewrite !elem_of_cons in Hk;
    destruct Hk as [-> | [-> | [-> | Hk]]];
    [ | | | by apply elem_of_nil in Hk ]; congruence.
Qed.

(** The defect: a field that passes the check is assigned before the next
    one is checked, and the 400 is returned from inside the scope, which
    commits on return. *)
Lemma api_update_post_blank_after_assignment (post_id : Z)
    (d : gmap string json) (vt va : json) (db : table) (r : Row) :
  db !! post_id = Some r →
  d !! "title" = Some vt → strip (py_str py_repr vt) ≠ "" →
  d !! "author" = Some va → strip (py_str py_repr va) = "" →
  api_update_post py_repr healthy post_id (Some (JDict d)) db
  = mkRun (Return (Json (error "author cannot be empty") 400))
      (<[post_id := mkRow (strip (py_str py_repr vt)) (row_author r)
                      (row_content r) (row_created_at r)]> db)
      [Commit; Close].
Proof.
  intros Hr Ht Nt Ha Ba. apply blank_false in Nt. apply blank_true in Ba.
  unfold api_update_post. rewrite get_json_or_empty_dict, get_session_healthy.
  unfold bind at 1. unfold s_get. rewrite Hr. simpl. unfold bind.
  rewrite update_field_dict, Ht, Nt. rewrite update_field_dict, Ha, Ba. done.
Qed.

End RejectedUpdates.

(** C1 (refuted on the code). On the table holding the post
    [{id: 1, title: "A", author: "B", content: "C"}], the request
    [PUT /api/posts/1] with body [{"title": "X", "author": ""}] is answered
    400 with "author cannot be empty", and the stored row has title "X": the
    row is not left unchanged. The body [{"author": ""}] of the
    specification's scenario, with no field before the blank one, is
    answered 400 with the row unchanged. *)
Theorem update_blank_author_commits_new_title (py_repr : json → string) :
  api_update_post py_repr healthy 1
    (obj {[ "title" := JStr "X"; "author" := JStr "" ]}) sample_table
  = mkRun (Return (Json (error "author cannot be empty") 400))
      {[ 1 := mkRow "X" "B" "C" (Some sample_time) ]} [Commit; Close]
  ∧ stored (api_update_post py_repr healthy 1
              (obj {[ "title" := JStr "X"; "author" := JStr "" ]})
              sample_table) !! 1
    ≠ sample_table !! 1
  ∧ api_update_post py_repr healthy 1 (obj {[ "author" := JStr "" ]})
      sample_table
    = mkRun (Return (Json (error "author cannot be empty") 400))
        sample_table [Commit; Close].
Proof.
  split_and!.
  - reflexivity.
  - vm_compute. discriminate.
  - reflexivity.
Qed.

(** ** Rejected creates *)

Lemma required_field_read (d : gmap string json) (k : string) :
  str_or_falsy (d !! k) = true →
  required_field (JDict d) k = Return (read_field (d !! k)).
Proof.
  intros Hk. destruct (d !! k) as [v |] eqn:E;
    [| by apply required_field_missing].
  destruct v as [| b | z | f | s | l | m].
  5: by apply required_field_str.
  all: unfold str_or_falsy in Hk; apply negb_true_iff in Hk.
  all: by rewrite (required_field_falsy d k _ E Hk).
Qed.

Lemma missing_or_blank_read (v : option json) :
  str_or_falsy v = true → missing_or_blank v = blank (read_field v).
Proof. by destruct v as [[] |]. Qed.

(** On an object whose three fields are strings, missing, or values Python
    takes for false, a missing or blank one makes the create answer 400
    before any session is opened. *)
Lemma api_create_post_missing_or_blank (eng : faults) (now : datetime)
    (body : option json) (d : gmap string json) (db : table) :
  get_json_or_empty body = JDict d →
  (∀ k, k ∈ post_fields → str_or_falsy (d !! k) = true) →
  (∃ k, k ∈ post_fields ∧ missing_or_blank (d !! k) = true) →
  api_create_post eng now body db
  = no_session
      (Return (Json (error "title, author, content are required") 400)) db.
Proof.
  intros Hdata Hok (k & Hk & Hblank). unfold api_create_post, create_fields.
  rewrite Hdata.
  rewrite !required_field_read
    by (apply Hok;
        repeat first [apply list_elem_of_here | apply list_elem_of_further]).
  simpl. rewrite missing_or_blank_read in Hblank by by apply Hok.
  unfold post_fields in Hk. rewrite !elem_of_cons in Hk.
  destruct Hk as [-> | [-> | [-> | Hk]]]; [| | | by apply elem_of_nil in Hk];
    rewrite Hblank; by rewrite ?orb_true_r.
Qed.

(** A field that is null, 0 or false is read exactly as if the body did not
    have it. *)
Lemma required_field_delete_falsy (d : gmap string json) (k k' : string)
    (v : json) :
  d !! k = Some v → truthy v = false →
  required_field (JDict d) k' = required_field (JDict (delete k d)) k'.
Proof.
  intros Hk Hv. destruct (decide (k = k')) as [<- | Hne].
  - rewrite (required_field_falsy d k v) by done.
    by rewrite required_field_missing by apply lookup_delete_eq.
  - unfold required_field, py_get. by rewrite lookup_delete_ne.
Qed.

Lemma null_zero_false_falsy (v : json) :
  v ∈ null_zero_false → truthy v = false.
Proof.
  unfold null_zero_false. rewrite !elem_of_cons.
  intros [-> | [-> | [-> | H]]]; try done. by apply elem_of_nil in H.
Qed.

(** C3 (refuted on the code). [POST /api/posts] with body [{"title": 5}],
    in which author and content are missing: reading the title raises
    [AttributeError] before the check is reached, so the client gets 500 and
    not the 400 with "title, author, content are required"; no session is
    opened and no row is stored. *)
Theorem create_number_title_raises (now : datetime) (db : table) :
  fields_of (obj {[ "title" := JInt 5 ]}) !! "author" = None
  ∧ api_create_post healthy now (obj {[ "title" := JInt 5 ]}) db
    = mkRun (Raise AttributeError) db []
  ∧ status_code
      (result (api_create_post healthy now (obj {[ "title" := JInt 5 ]}) db))
    = 500.
Proof. by split_and!. Qed.

(** A null field does not always make the create answer 400: with a number
    as title and null as author, the answer is 500. *)
Lemma create_null_author_number_title_not_400 :
  ¬ (∀ (now : datetime) (d : gmap string json) (db : table) (k : string)
       (v : json),
       k ∈ post_fields → v ∈ null_zero_false → d !! k = Some v →
       status_code (result (api_create_post healthy now (obj d) db)) = 400).
Proof.
  intros H.
  specialize (H sample_time {[ "title" := JInt 5; "author" := JNull ]} ∅
                "author" JNull).
  assert (status_code
            (result (api_create_post healthy sample_time
                       (obj {[ "title" := JInt 5; "author" := JNull ]}) ∅))
          = 500) as H500 by reflexivity.
  rewrite H in H500; [discriminate | | | reflexivity].
  - apply list_elem_of_further, list_elem_of_here.
  - apply list_elem_of_here.
Qed.

(** C10 (refuted on the code). For every existing post and every
    [PUT /api/posts/{id}] whose body is an object, each present field among
    title, author and content, of whatever JSON value [v], is checked and
    stored as [str(v)] trimmed: when none of these is blank the answer is
    200 and each present field is set to it; when one is blank the answer is
    400. So [{"title": null}] passes the check and sets the title to "None",
    and [{"title": 0}] sets it to "0". [POST /api/posts] answers a body in
    which a field is null, 0 or false as it answers the body without that
    field; the answer is 400 with "title, author, content are required", and
    nothing is stored, when each of the three fields is missing, a string,
    or a value Python takes for false. But [POST /api/posts] with body
    [{"title": 5, "author": null}], which has a null field, is not answered
    400: reading the title raises [AttributeError], the client gets 500,
    where [PUT] with the same body coerces both values with [str] and
    answers 200. *)
Theorem put_coerces_with_str_post_reads_falsy_as_missing
    (py_repr : json → string) :
  (∀ post_id d db r,
     db !! post_id = Some r →
     (∀ k v, k ∈ post_fields → d !! k = Some v →
             strip (py_str py_repr v) ≠ "") →
     api_update_post py_repr healthy post_id (obj d) db
     = mkRun
         (Return (Json (post_to_dict (load post_id (patched_row py_repr d r)))
                    200))
         (<[post_id := patched_row py_repr d r]> db) [Commit; Close])
  ∧ (∀ post_id d db r,
       db !! post_id = Some r →
       (∃ k v, k ∈ post_fields ∧ d !! k = Some v
               ∧ strip (py_str py_repr v) = "") →
       status_code (result (api_update_post py_repr healthy post_id (obj d) db))
       = 400)
  ∧ py_str py_repr JNull = "None"
  ∧ py_str py_repr (JInt 0) = "0"
  ∧ api_update_post py_repr healthy 1 (obj {[ "title" := JNull ]}) sample_table
    = mkRun
        (Return (Json (post_to_dict (mkPost 1 "None" "B" "C" (Some sample_time)))
                   200))
        {[ 1 := mkRow "None" "B" "C" (Some sample_time) ]} [Commit; Close]
  ∧ api_update_post py_repr healthy 1 (obj {[ "title" := JInt 0 ]}) sample_table
    = mkRun
        (Return (Json (post_to_dict (mkPost 1 "0" "B" "C" (Some sample_time)))
                   200))
        {[ 1 := mkRow "0" "B" "C" (Some sample_time) ]} [Commit; Close]
  ∧ (∀ eng now d db k v,
       k ∈ post_fields → v ∈ null_zero_false → d !! k = Some v →
       api_create_post eng now (obj d) db
       = api_create_post eng now (obj (delete k d)) db
       ∧ ((∀ k', k' ∈ post_fields → str_or_falsy (d !! k') = true) →
          api_create_post eng now (obj d) db
          = no_session
              (Return (Json (error "title, author, content are required")
                         400)) db))
  ∧ (∀ now db,
       api_create_post healthy now
         (obj {[ "title" := JInt 5; "author" := JNull ]}) db
       = mkRun (Raise AttributeError) db []
       ∧ status_code
           (result (api_create_post healthy now
                      (obj {[ "title" := JInt 5; "author" := JNull ]}) db))
         = 500)
  ∧ api_update_post py_repr healthy 1
      (obj {[ "title" := JInt 5; "author" := JNull ]}) sample_table
    = mkRun
        (Return (Json (post_to_dict
                         (mkPost 1 "5" "None" "C" (Some sample_time))) 200))
        {[ 1 := mkRow "5" "None" "C" (Some sample_time) ]} [Commit; Close].
Proof.
  split_and!.
  8: by intros now db.
  8: reflexivity.
  - intros post_id d db r Hr Hok.
    by apply api_update_post_dict; [| apply get_json_or_empty_dict |].
  - intros post_id d db r Hr Hblank.
    destruct (api_update_post_blank_400 py_repr post_id (obj d) d db r)
      as (k & t' & _ & ->); [done | apply get_json_or_empty_dict | done |].
    reflexivity.
  - reflexivity.
  - reflexivity.
  - reflexivity.
  - reflexivity.
  - intros eng now d db k v Hk Hv%null_zero_false_falsy Hd. split.
    + unfold api_create_post, obj, create_fields.
      rewrite !get_json_or_empty_dict.
      by rewrite !(required_field_delete_falsy d k _ v Hd Hv).
    + intros Hok. apply api_create_post_missing_or_blank with (d := d).
      * apply get_json_or_empty_dict.
      * done.
      * exists k. split; [done |]. rewrite Hd.
        destruct v as [| b | z | f | s | l | m].
        5: { simpl in Hv. apply negb_false_iff, blank_true in Hv.
             by subst s. }
        all: unfold missing_or_blank; by rewrite Hv.
Qed.

(** A PUT that sets the author to the JSON value true, stored as "True", and
    a POST whose author is 0, answered 400. *)
Lemma put_coerces_with_str_post_reads_falsy_as_missing_witness :
  api_update_post repr_stub healthy 1 (obj {[ "author" := JBool true ]})
    sample_table
  = mkRun
      (Return (Json (post_to_dict
                       (mkPost 1 "A" "True" "C" (Some sample_time))) 200))
      {[ 1 := mkRow "A" "True" "C" (Some sample_time) ]} [Commit; Close]
  ∧ status_code
      (result (api_update_post repr_stub healthy 1
                 (obj {[ "content" := JStr "  " ]}) sample_table))
    = 400
  ∧ api_create_post healthy sample_time
      (obj {[ "title" := JStr "A"; "author" := JInt 0;
              "content" := JStr "C" ]}) sample_table
    = no_session
        (Return (Json (error "title, author, content are required") 400))
        sample_table.
Proof.
  pose proof (put_coerces_with_str_post_reads_falsy_as_missing repr_stub)
    as (Hput & Hblank & _ & _ & _ & _ & Hpost & _).
  split_and!.
  - rewrite (Hput 1 {[ "author" := JBool true ]} sample_table
               (mkRow "A" "B" "C" (Some sample_time))); [done | done |].
    intros k v Hk Hv. unfold post_fields in Hk. rewrite !elem_of_cons in Hk.
    destruct Hk as [-> | [-> | [-> | Hk]]]; vm_compute in Hv;
      [discriminate | | discriminate | by apply elem_of_nil in Hk].
    injection Hv as <-. vm_compute. discriminate.
  - apply (Hblank 1 {[ "content" := JStr "  " ]} sample_table
             (mkRow "A" "B" "C" (Some sample_time))); [done |].
    exists "content", (JStr "  "). split_and!; [| done | done].
    do 2 apply list_elem_of_further. apply list_elem_of_here.
  - apply (Hpost healthy sample_time
             {[ "title" := JStr "A"; "author" := JInt 0;
                "content" := JStr "C" ]} sample_table "author" (JInt 0)).
    + apply list_elem_of_further, list_elem_of_here.
    + apply list_elem_of_further, list_elem_of_here.
    + reflexivity.
    + intros k' Hk'. unfold post_fields in Hk'. rewrite !elem_of_cons in Hk'.
      destruct Hk' as [-> | [-> | [-> | Hk']]]; try reflexivity.
      by apply elem_of_nil in Hk'.
Defined.

(** * Further properties of the code *)

(** ** HTML forms *)

Ltac in_post_fields :=
  by repeat first [apply list_elem_of_here | apply list_elem_of_further].

Lemma blank_some_field (f : form) :
  (∃ k, k ∈ post_fields ∧ form_get f k = "") →
  blank (form_get f "title") || blank (form_get f "author")
  || blank (form_get f "content") = true.
Proof.
  intros (k & Hk & Hblank). apply blank_true in Hblank.
  unfold post_fields in Hk. rewrite !elem_of_cons in Hk.
  destruct Hk as [-> | [-> | [-> | Hk]]]; [| | | by apply elem_of_nil in Hk];
    rewrite Hblank; by rewrite ?orb_true_r.
Qed.

Lemma blank_no_field (f : form) :
  (∀ k, k ∈ post_fields → form_get f k ≠ "") →
  blank (form_get f "title") || blank (form_get f "author")
  || blank (form_get f "content") = false.
Proof.
  intros Hok.
  rewrite !(proj2 (blank_false _)) by (apply Hok; in_post_fields). done.
Qed.

(** X1. [POST /posts/new] with a form in which title, author or content is
    missing, empty or whitespace only opens no session and stores nothing:
    it renders the form again with "All fields are required." and the three
    values as trimmed. *)
Theorem new_post_action_rejects_blank (eng : faults) (now : datetime)
    (f : form) (db : table) :
  (∃ k, k ∈ post_fields ∧ form_get f k = "") →
  new_post_action eng now f db
  = mkVrun
      (inl (Render "new_post.html"
              {[ "error" := CStr "All fields are required.";
                 "title" := CStr (form_get f "title");
                 "author" := CStr (form_get f "author");
                 "content" := CStr (form_get f "content") ]})) db [].
Proof.
  intros Hblank. unfold new_post_action. by rewrite blank_some_field.
Qed.

(** A form whose content is spaces and a newline. *)
Lemma new_post_action_rejects_blank_witness :
  new_post_action healthy sample_time
    {[ "title" := " T "; "author" := "A"; "content" := String "010" "  " ]}
    sample_table
  = mkVrun
      (inl (Render "new_post.html"
              {[ "error" := CStr "All fields are required.";
                 "title" := CStr "T"; "author" := CStr "A";
                 "content" := CStr "" ]})) sample_table [].
Proof.
  rewrite (new_post_action_rejects_blank healthy sample_time
             {[ "title" := " T "; "author" := "A";
                "content" := String "010" "  " ]} sample_table).
  - vm_compute. reflexivity.
  - exists "content". split; [in_post_fields | reflexivity].
Defined.

Lemma new_post_action_valid (now : datetime) (f : form) (db : table) :
  (∀ k, k ∈ post_fields → form_get f k ≠ "") →
  new_post_action healthy now f db
  = mkVrun (inl (Redirect (url_for_post_detail_page (next_rowid db))))
      (<[next_rowid db := mkRow (form_get f "title") (form_get f "author")
                            (form_get f "content") (Some now)]> db)
      [Commit; Close].
Proof.
  intros Hok. unfold new_post_action. rewrite blank_no_field by done.
  by rewrite get_session_view_healthy.
Qed.

Lemma post_detail_page_found (post_id : Z) (r : Row) (db : table) :
  db !! post_id = Some r →
  post_detail_page healthy post_id db
  = mkVrun (inl (Render "post_detail.html" {[ "post" := CPost (load post_id r) ]}))
      db [Commit; Close].
Proof.
  intros Hr. unfold post_detail_page. rewrite get_session_view_healthy.
  unfold vbind, of_work, s_get. simpl. by rewrite Hr.
Qed.

(** X2. [POST /posts/new] with a form whose three fields are not blank once
    trimmed stores one new row, under a key that was not in use, with the
    trimmed values and the time of the insert, and redirects to the detail
    page of that key; that page then shows exactly this post. *)
Theorem new_post_then_detail (now : datetime) (f : form) (db : table) :
  (∀ k, k ∈ post_fields → form_get f k ≠ "") →
  db !! next_rowid db = None
  ∧ new_post_action healthy now f db
    = mkVrun (inl (Redirect (url_for_post_detail_page (next_rowid db))))
        (<[next_rowid db := mkRow (form_get f "title") (form_get f "author")
                              (form_get f "content") (Some now)]> db)
        [Commit; Close]
  ∧ vresult (post_detail_page healthy (next_rowid db)
               (vstored (new_post_action healthy now f db)))
    = inl (Render "post_detail.html"
             {[ "post" := CPost (mkPost (next_rowid db) (form_get f "title")
                                   (form_get f "author") (form_get f "content")
                                   (Some now)) ]}).
Proof.
  intros Hok. split; [apply next_rowid_fresh |].
  rewrite new_post_action_valid by done. split; [done |]. simpl.
  by rewrite (post_detail_page_found _
                (mkRow (form_get f "title") (form_get f "author")
                   (form_get f "content") (Some now)))
    by apply lookup_insert_eq.
Qed.

Lemma new_post_then_detail_witness :
  new_post_action healthy sample_time
    {[ "title" := " T "; "author" := "A"; "content" := "text" ]} sample_table
  = mkVrun (inl (Redirect "/posts/2"))
      {[ 1 := mkRow "A" "B" "C" (Some sample_time);
         2 := mkRow "T" "A" "text" (Some sample_time) ]}
      [Commit; Close].
Proof.
  destruct (new_post_then_detail sample_time
              {[ "title" := " T "; "author" := "A"; "content" := "text" ]}
              sample_table) as (_ & Hnew & _).
  - intros k Hk. unfold post_fields in Hk. rewrite !elem_of_cons in Hk.
    destruct Hk as [-> | [-> | [-> | Hk]]]; try (vm_compute; discriminate).
    by apply elem_of_nil in Hk.
  - rewrite Hnew. vm_compute. reflexivity.
Defined.

(** ** Editing and deleting through the pages *)

Lemma edit_post_action_valid (post_id : Z) (f : form) (db : table) :
  (∀ k, k ∈ post_fields → form_get f k ≠ "") →
  edit_post_action healthy post_id f db
  = match db !! post_id with
    | Some r =>
        mkVrun (inl (Redirect (url_for_post_detail_page post_id)))
          (<[post_id := mkRow (form_get f "title") (form_get f "author")
                          (form_get f "content") (row_created_at r)]> db)
          [Commit; Close]
    | None =>
        mkVrun (inr (if fits_int64 post_id then NotFound
                     else Exc OverflowError)) db [Rollback; Close]
    end.
Proof.
  intros Hok. unfold edit_post_action. rewrite blank_no_field by done.
  rewrite get_session_view_healthy. unfold vbind, of_work, s_get. simpl.
  destruct (db !! post_id) as [r |]; simpl;
    [| by destruct (fits_int64 post_id)].
  by rewrite !insert_insert_eq.
Qed.

(** X3. [POST /posts/{id}/edit], with a healthy engine. A form with a blank
    field is answered with the form again, the error and the values typed,
    and nothing is stored, whether or not the post exists. A form whose three
    fields are not blank replaces title, author and content of an existing
    post by the trimmed values, keeps its key, its [created_at] and every
    other row, and redirects to its detail page; for a post that does not
    exist it is answered 404 after a rollback when the id fits a signed
    64-bit integer, and 500 after a rollback when it does not (the lookup
    raises [OverflowError]); the table is unchanged in both cases. *)
Theorem edit_post_action_replaces_all_fields (post_id : Z) (f : form)
    (db : table) :
  ((∃ k, k ∈ post_fields ∧ form_get f k = "") →
   edit_post_action healthy post_id f db
   = mkVrun
       (inl (Render "edit_post.html"
               {[ "error" := CStr "All fields are required.";
                  "post" := CDict {[ "id" := JInt post_id;
                                     "title" := JStr (form_get f "title");
                                     "author" := JStr (form_get f "author");
                                     "content" := JStr (form_get f "content")
                                  ]} ]})) db [])
  ∧ ((∀ k, k ∈ post_fields → form_get f k ≠ "") →
     (∀ r, db !! post_id = Some r →
        edit_post_action healthy post_id f db
        = mkVrun (inl (Redirect (url_for_post_detail_page post_id)))
            (<[post_id := mkRow (form_get f "title") (form_get f "author")
                            (form_get f "content") (row_created_at r)]> db)
            [Commit; Close])
     ∧ (db !! post_id = None → fits_int64 post_id = true →
        edit_post_action healthy post_id f db
        = mkVrun (inr NotFound) db [Rollback; Close]
        ∧ page_status (vresult (edit_post_action healthy post_id f db))
          = 404)
     ∧ (db !! post_id = None → fits_int64 post_id = false →
        edit_post_action healthy post_id f db
        = mkVrun (inr (Exc OverflowError)) db [Rollback; Close]
        ∧ page_status (vresult (edit_post_action healthy post_id f db))
          = 500)).
Proof.
  split.
  - intros Hblank. unfold edit_post_action. by rewrite blank_some_field.
  - intros Hok. rewrite edit_post_action_valid by done. split_and!.
    + by intros r ->.
    + by intros -> ->.
    + by intros -> ->.
Qed.

(** The post 1 of the sample table, a form without an author, the absent
    id 7 and the absent id [2 ^ 63]. *)
Lemma edit_post_action_replaces_all_fields_witness :
  edit_post_action healthy 1
    {[ "title" := "T"; "author" := " U"; "content" := "V " ]} sample_table
  = mkVrun (inl (Redirect "/posts/1"))
      {[ 1 := mkRow "T" "U" "V" (Some sample_time) ]} [Commit; Close]
  ∧ vstored (edit_post_action healthy 1
               {[ "title" := "T"; "content" := "V " ]} sample_table)
    = sample_table
  ∧ vresult (edit_post_action healthy 7
               {[ "title" := "T"; "author" := " U"; "content" := "V " ]}
               sample_table)
    = inr NotFound
  ∧ edit_post_action healthy (2 ^ 63)
      {[ "title" := "T"; "author" := " U"; "content" := "V " ]} sample_table
    = mkVrun (inr (Exc OverflowError)) sample_table [Rollback; Close].
Proof.
  pose proof (edit_post_action_replaces_all_fields 1
                {[ "title" := "T"; "author" := " U"; "content" := "V " ]}
                sample_table) as [_ Hvalid].
  pose proof (edit_post_action_replaces_all_fields 1
                {[ "title" := "T"; "content" := "V " ]} sample_table)
    as [Hblank _].
  pose proof (edit_post_action_replaces_all_fields 7
                {[ "title" := "T"; "author" := " U"; "content" := "V " ]}
                sample_table) as [_ Hmissing].
  pose proof (edit_post_action_replaces_all_fields (2 ^ 63)
                {[ "title" := "T"; "author" := " U"; "content" := "V " ]}
                sample_table) as [_ Hbig].
  assert (∀ k, k ∈ post_fields →
               form_get {[ "title" := "T"; "author" := " U";
                           "content" := "V " ]} k ≠ "") as Hok.
  { intros k Hk. unfold post_fields in Hk. rewrite !elem_of_cons in Hk.
    destruct Hk as [-> | [-> | [-> | Hk]]]; try (vm_compute; discriminate).
    by apply elem_of_nil in Hk. }
  split_and!.
  - destruct (Hvalid Hok) as [Hfound _].
    rewrite (Hfound (mkRow "A" "B" "C" (Some sample_time))) by reflexivity.
    vm_compute. reflexivity.
  - rewrite Hblank; [reflexivity |].
    exists "author". split; [in_post_fields | reflexivity].
  - destruct (Hmissing Hok) as (_ & Habsent & _).
    destruct Habsent as [-> _]; reflexivity.
  - destruct (Hbig Hok) as (_ & _ & Hraise).
    destruct Hraise as [-> _]; reflexivity.
Defined.

Lemma edit_post_action_cases (eng : faults) (post_id : Z)
    (f : form) (db : table) :
  vstored (edit_post_action eng post_id f db) = db
  ∨ ∃ r, db !! post_id = Some r
         ∧ (∀ k, k ∈ post_fields → form_get f k ≠ "")
         ∧ vresult (edit_post_action eng post_id f db)
           = inl (Redirect (url_for_post_detail_page post_id))
         ∧ vstored (edit_post_action eng post_id f db)
           = <[post_id := mkRow (form_get f "title") (form_get f "author")
                            (form_get f "content") (row_created_at r)]> db.
Proof.
  unfold edit_post_action.
  destruct (blank (form_get f "title")) eqn:Bt; [by left |].
  destruct (blank (form_get f "author")) eqn:Ba; [by left |].
  destruct (blank (form_get f "content")) eqn:Bc; [by left |]. simpl.
  unfold get_session_view, on_view_exception, vbind, of_work, s_get. simpl.
  destruct (db !! post_id) as [r |] eqn:Hr; simpl.
  - destruct (commit_fails eng); [destruct (rollback_fails eng); by left |].
    right. exists r. split_and!; try done.
    + intros k Hk. unfold post_fields in Hk. rewrite !elem_of_cons in Hk.
      destruct Hk as [-> | [-> | [-> | Hk]]];
        [by apply blank_false.. | by apply elem_of_nil in Hk].
    + by rewrite !insert_insert_eq.
  - destruct (fits_int64 post_id), (rollback_fails eng); by left.
Qed.

(** X4. Whatever the storage engine does to the scope, and whatever the
    form, [POST /posts/{id}/edit] never leaves a row partly updated: the
    table afterwards is the table before, or the post existed, the three
    fields of the form are not blank, the answer is the redirect and the row
    has all three replaced. *)
Theorem edit_post_action_all_or_nothing (eng : faults) (post_id : Z)
    (f : form) (db : table) :
  vstored (edit_post_action eng post_id f db) = db
  ∨ ∃ r, db !! post_id = Some r
         ∧ (∀ k, k ∈ post_fields → form_get f k ≠ "")
         ∧ vresult (edit_post_action eng post_id f db)
           = inl (Redirect (url_for_post_detail_page post_id))
         ∧ vstored (edit_post_action eng post_id f db)
           = <[post_id := mkRow (form_get f "title") (form_get f "author")
                            (form_get f "content") (row_created_at r)]> db.
Proof. apply edit_post_action_cases. Qed.

Lemma delete_post_action_healthy (post_id : Z) (db : table) :
  fits_int64 post_id = true ∨ is_Some (db !! post_id) →
  delete_post_action healthy post_id db
  = mkVrun (inl (Redirect url_for_index)) (delete post_id db) [Commit; Close].
Proof.
  intros Hk. unfold delete_post_action. rewrite get_session_view_healthy.
  unfold vbind, of_work, s_get. simpl.
  destruct (db !! post_id) as [r |] eqn:Hr; simpl; [done |].
  destruct Hk as [-> | [r Hr']]; [| done].
  simpl. by rewrite delete_id.
Qed.

Lemma delete_post_action_overflow (post_id : Z) (db : table) :
  fits_int64 post_id = false → db !! post_id = None →
  delete_post_action healthy post_id db
  = mkVrun (inr (Exc OverflowError)) db [Rollback; Close].
Proof.
  intros Hk Hr. unfold delete_post_action. rewrite get_session_view_healthy.
  unfold vbind, of_work, s_get. simpl. by rewrite Hr, Hk.
Qed.

Lemma api_delete_post_stored (post_id : Z) (db : table) :
  stored (api_delete_post healthy post_id db) = delete post_id db.
Proof.
  destruct (db !! post_id) as [r |] eqn:Hr.
  - by rewrite (api_delete_post_found post_id r).
  - rewrite delete_id by done. destruct (fits_int64 post_id) eqn:Hk.
    + by rewrite api_delete_post_missing.
    + by rewrite api_delete_post_overflow.
Qed.

(** X5. [POST /posts/{id}/delete], with a healthy engine. For an id that
    fits a signed 64-bit integer it always redirects to the list page, for
    a post that exists and for one that does not; the table afterwards has
    no row under that key and every other row as before, which is also what
    [DELETE /api/posts/{id}] leaves; doing it again changes nothing more.
    For an absent id that does not fit, the lookup raises [OverflowError]:
    the answer is 500 after a rollback, the table unchanged. *)
Theorem delete_post_action_redirects (post_id : Z) (db : table) :
  (fits_int64 post_id = true →
   delete_post_action healthy post_id db
   = mkVrun (inl (Redirect "/")) (delete post_id db) [Commit; Close]
   ∧ vstored (delete_post_action healthy post_id db) !! post_id = None
   ∧ (∀ k, k ≠ post_id →
           vstored (delete_post_action healthy post_id db) !! k = db !! k)
   ∧ vstored (delete_post_action healthy post_id db)
     = stored (api_delete_post healthy post_id db)
   ∧ delete_post_action healthy post_id
       (vstored (delete_post_action healthy post_id db))
     = delete_post_action healthy post_id db)
  ∧ (fits_int64 post_id = false → db !! post_id = None →
     delete_post_action healthy post_id db
     = mkVrun (inr (Exc OverflowError)) db [Rollback; Close]
     ∧ page_status (vresult (delete_post_action healthy post_id db)) = 500).
Proof.
  split.
  - intros Hk.
    rewrite !delete_post_action_healthy, api_delete_post_stored by auto.
    simpl. split_and!; try done.
    + apply lookup_delete_eq.
    + intros k Hne. by apply lookup_delete_ne.
    + by rewrite delete_delete_eq.
  - intros Hk Hr. by rewrite delete_post_action_overflow.
Qed.

(** The post 1 of the sample table, the absent id 7 and the absent id
    [2 ^ 63]. *)
Lemma delete_post_action_redirects_witness :
  delete_post_action healthy 1 sample_table
  = mkVrun (inl (Redirect "/")) ∅ [Commit; Close]
  ∧ delete_post_action healthy 7 sample_table
    = mkVrun (inl (Redirect "/")) sample_table [Commit; Close]
  ∧ delete_post_action healthy (2 ^ 63) sample_table
    = mkVrun (inr (Exc OverflowError)) sample_table [Rollback; Close].
Proof.
  pose proof (delete_post_action_redirects 1 sample_table) as [Hone _].
  pose proof (delete_post_action_redirects 7 sample_table) as [Hseven _].
  pose proof (delete_post_action_redirects (2 ^ 63) sample_table)
    as [_ Hbig].
  destruct (Hone eq_refl) as [-> _].
  destruct (Hseven eq_refl) as [-> _].
  destruct (Hbig eq_refl eq_refl) as [-> _].
  split_and!; vm_compute; reflexivity.
Defined.

(** Whatever the storage engine does to the scope, the delete page stores
    the table as it was or the table without the row of that key, and when
    an exception leaves it, the table is as it was. *)
Lemma delete_post_action_cases (eng : faults) (post_id : Z)
    (db : table) :
  (vstored (delete_post_action eng post_id db) = db
   ∨ vstored (delete_post_action eng post_id db) = delete post_id db)
  ∧ (∀ e, vresult (delete_post_action eng post_id db) = inr e →
          vstored (delete_post_action eng post_id db) = db).
Proof.
  unfold delete_post_action, get_session_view, on_view_exception, vbind,
    of_work, s_get. simpl.
  destruct (db !! post_id) as [r |] eqn:Hr; [| destruct (fits_int64 post_id)];
    simpl; destruct (commit_fails eng), (rollback_fails eng); simpl;
    split; auto; by intros.
Qed.

(** ** The detail and edit pages *)

(** X6. [GET /posts/{id}] and [GET /posts/{id}/edit] never change the
    table, whatever the storage engine does; with a healthy engine they
    render their template with the stored post when the key is in the table;
    when it is not, they are answered 404 after a rollback if the id fits a
    signed 64-bit integer, and 500 after a rollback if it does not (the
    lookup raises [OverflowError]). *)
Theorem detail_and_edit_pages_read_only (post_id : Z) (db : table) :
  (∀ eng, vstored (post_detail_page eng post_id db) = db
          ∧ vstored (edit_post_page eng post_id db) = db)
  ∧ post_detail_page healthy post_id db
    = match db !! post_id with
      | Some r =>
          mkVrun (inl (Render "post_detail.html"
                         {[ "post" := CPost (load post_id r) ]}))
            db [Commit; Close]
      | None =>
          mkVrun (inr (if fits_int64 post_id then NotFound
                       else Exc OverflowError)) db [Rollback; Close]
      end
  ∧ edit_post_page healthy post_id db
    = match db !! post_id with
      | Some r =>
          mkVrun (inl (Render "edit_post.html"
                         {[ "post" := CPost (load post_id r) ]}))
            db [Commit; Close]
      | None =>
          mkVrun (inr (if fits_int64 post_id then NotFound
                       else Exc OverflowError)) db [Rollback; Close]
      end
  ∧ (db !! post_id = None ∧ fits_int64 post_id = true ↔
     page_status (vresult (post_detail_page healthy post_id db)) = 404)
  ∧ (db !! post_id = None ∧ fits_int64 post_id = false ↔
     page_status (vresult (post_detail_page healthy post_id db)) = 500).
Proof.
  split_and!.
  - intros eng. split; apply get_session_view_read_only; intros t;
      apply lookup_view_read_only; by intros [p |] t'.
  - unfold post_detail_page. rewrite get_session_view_healthy.
    unfold vbind, of_work, s_get. simpl.
    by destruct (db !! post_id), (fits_int64 post_id).
  - unfold edit_post_page. rewrite get_session_view_healthy.
    unfold vbind, of_work, s_get. simpl.
    by destruct (db !! post_id), (fits_int64 post_id).
  - unfold post_detail_page. rewrite get_session_view_healthy.
    unfold vbind, of_work, s_get. simpl.
    destruct (db !! post_id), (fits_int64 post_id); simpl;
      split; (by intros [? ?]) || done.
  - unfold post_detail_page. rewrite get_session_view_healthy.
    unfold vbind, of_work, s_get. simpl.
    destruct (db !! post_id), (fits_int64 post_id); simpl;
      split; (by intros [? ?]) || done.
Qed.

(** The post 1 of the sample table, the absent id 7 and the absent id
    [2 ^ 63]. *)
Lemma detail_and_edit_pages_read_only_witness :
  post_detail_page healthy 1 sample_table
  = mkVrun (inl (Render "post_detail.html" {[ "post" := CPost sample_post ]}))
      sample_table [Commit; Close]
  ∧ page_status (vresult (post_detail_page healthy 7 sample_table)) = 404
  ∧ page_status (vresult (post_detail_page healthy (2 ^ 63) sample_table))
    = 500
  ∧ edit_post_page healthy (2 ^ 63) sample_table
    = mkVrun (inr (Exc OverflowError)) sample_table [Rollback; Close].
Proof.
  pose proof (detail_and_edit_pages_read_only 1 sample_table)
    as (_ & Hone & _).
  pose proof (detail_and_edit_pages_read_only 7 sample_table)
    as (_ & _ & _ & Hseven & _).
  pose proof (detail_and_edit_pages_read_only (2 ^ 63) sample_table)
    as (_ & _ & Hedit & _ & Hbig).
  split_and!.
  - rewrite Hone. reflexivity.
  - apply Hseven. split; reflexivity.
  - apply Hbig. split; reflexivity.
  - rewrite Hedit. reflexivity.
Defined.

(** ** The pages and the API on the same input *)

Lemma required_field_form (f : form) (k : string) :
  required_field (JDict (JStr <$> f)) k = Return (form_get f k).
Proof.
  unfold form_get. destruct (f !! k) as [s |] eqn:Hk.
  - apply required_field_str. by rewrite lookup_fmap, Hk.
  - apply required_field_missing. by rewrite lookup_fmap, Hk.
Qed.

Lemma api_create_post_form (eng : faults) (now : datetime) (f : form)
    (db : table) :
  api_create_post eng now (json_of_form f) db
  = if blank (form_get f "title") || blank (form_get f "author")
       || blank (form_get f "content")
    then no_session
           (Return (Json (error "title, author, content are required") 400))
           db
    else get_session eng
           (let* p := s_add_flush now (form_get f "title")
                        (form_get f "author") (form_get f "content") in
            ret (Json (post_to_dict p) 201))%work db.
Proof.
  unfold api_create_post, json_of_form, create_fields.
  rewrite get_json_or_empty_dict, !required_field_form. done.
Qed.

(** X7. A form posted to [/posts/new] and the same three strings sent as a
    JSON object to [POST /api/posts] are accepted or rejected together, and
    leave the same table, whatever the storage engine does: the page
    redirects exactly when the API answers 201, and renders the form again
    exactly when the API answers 400. *)
Theorem new_post_action_agrees_with_api (eng : faults) (now : datetime)
    (f : form) (db : table) :
  vstored (new_post_action eng now f db)
  = stored (api_create_post eng now (json_of_form f) db)
  ∧ vcalls (new_post_action eng now f db)
    = calls (api_create_post eng now (json_of_form f) db)
  ∧ (page_status (vresult (new_post_action eng now f db)) = 302 ↔
     status_code (result (api_create_post eng now (json_of_form f) db)) = 201)
  ∧ (page_status (vresult (new_post_action eng now f db)) = 200 ↔
     status_code (result (api_create_post eng now (json_of_form f) db)) = 400).
Proof.
  rewrite api_create_post_form. unfold new_post_action.
  destruct (blank (form_get f "title") || blank (form_get f "author")
            || blank (form_get f "content")); [by split_and! |].
  unfold get_session_view, get_session, on_view_exception, on_exception,
    vbind, bind, of_work, s_add_flush. simpl.
  destruct (commit_fails eng), (rollback_fails eng); simpl; by split_and!.
Qed.

Section PagesAndApi.

Variable py_repr : json → string.

(** [PUT] on a key that is not in the table: 404 before the body is looked
    at, when the key fits a signed 64-bit integer. *)
Lemma api_update_post_missing (post_id : Z) (body : option json)
    (db : table) :
  db !! post_id = None → fits_int64 post_id = true →
  api_update_post py_repr healthy post_id body db
  = mkRun (Return (Json (error "Not found") 404)) db [Commit; Close].
Proof.
  intros Hr Hk. unfold api_update_post. rewrite get_session_healthy.
  unfold bind, s_get. by rewrite Hr, Hk.
Qed.

(** When it does not fit, the lookup raises. *)
Lemma api_update_post_overflow (post_id : Z) (body : option json)
    (db : table) :
  db !! post_id = None → fits_int64 post_id = false →
  api_update_post py_repr healthy post_id body db
  = mkRun (Raise OverflowError) db [Rollback; Close].
Proof.
  intros Hr Hk. unfold api_update_post. rewrite get_session_healthy.
  unfold bind, s_get. by rewrite Hr, Hk.
Qed.

(** X8. A form with three non-blank fields posted to [/posts/{id}/edit]
    leaves the table that [PUT /api/posts/{id}] leaves for the same three
    strings sent as a JSON object, for a post that exists and for one that
    does not. *)
Theorem edit_post_action_agrees_with_put (post_id : Z) (f : form)
    (db : table) :
  (∀ k, k ∈ post_fields → form_get f k ≠ "") →
  vstored (edit_post_action healthy post_id f db)
  = stored (api_update_post py_repr healthy post_id (json_of_form f) db).
Proof.
  intros Hok. rewrite edit_post_action_valid by done.
  destruct (db !! post_id) as [r |] eqn:Hr.
  - assert (∀ k, k ∈ post_fields →
                 (JStr <$> f) !! k = Some (JStr (default "" (f !! k)))) as Hf.
    { intros k Hk. specialize (Hok k Hk). unfold form_get in Hok.
      rewrite lookup_fmap. by destruct (f !! k). }
    rewrite (api_update_post_dict py_repr post_id _ (JStr <$> f) db r);
      [| done | apply get_json_or_empty_dict |].
    + simpl. unfold patched_row, patch.
      rewrite !Hf by in_post_fields. done.
    + intros k v Hk Hv. rewrite Hf in Hv by done. injection Hv as <-.
      by apply Hok.
  - destruct (fits_int64 post_id) eqn:Hk.
    + by rewrite api_update_post_missing.
    + by rewrite api_update_post_overflow.
Qed.

(** X9. On a key that is not in the table and fits a signed 64-bit
    integer, [PUT /api/posts/{id}] answers 404 with [{"error": "Not found"}]
    and stores nothing whatever the body, also for a body that is no JSON
    object or has blank fields: the API looks the post up before it looks
    at the body. The edit form does it the other way round: with a blank
    field it is answered with the form again (200), and only a form without
    blank fields is answered 404. On a key that is not in the table and does
    not fit, the lookup raises [OverflowError]: [PUT] is answered 500
    whatever the body, the form with a blank field is still answered with
    the form again (200), and a form without blank fields is answered
    500; nothing is stored. *)
Theorem unknown_id_put_and_edit (post_id : Z) (db : table) :
  db !! post_id = None →
  (fits_int64 post_id = true →
   (∀ body,
      api_update_post py_repr healthy post_id body db
      = mkRun (Return (Json (error "Not found") 404)) db [Commit; Close])
   ∧ (∀ f, (∀ k, k ∈ post_fields → form_get f k ≠ "") →
           page_status (vresult (edit_post_action healthy post_id f db)) = 404
           ∧ vstored (edit_post_action healthy post_id f db) = db))
  ∧ (fits_int64 post_id = false →
     (∀ body,
        api_update_post py_repr healthy post_id body db
        = mkRun (Raise OverflowError) db [Rollback; Close])
     ∧ (∀ f, (∀ k, k ∈ post_fields → form_get f k ≠ "") →
             page_status (vresult (edit_post_action healthy post_id f db))
             = 500
             ∧ vstored (edit_post_action healthy post_id f db) = db))
  ∧ (∀ f, (∃ k, k ∈ post_fields ∧ form_get f k = "") →
          page_status (vresult (edit_post_action healthy post_id f db)) = 200
          ∧ vstored (edit_post_action healthy post_id f db) = db).
Proof.
  intros Hr. split_and!.
  - intros Hk. split.
    + intros body. by apply api_update_post_missing.
    + intros f Hok. by rewrite edit_post_action_valid, Hr, Hk.
  - intros Hk. split.
    + intros body. by apply api_update_post_overflow.
    + intros f Hok. by rewrite edit_post_action_valid, Hr, Hk.
  - intros f Hblank. unfold edit_post_action. by rewrite blank_some_field.
Qed.

End PagesAndApi.

Lemma edit_post_action_agrees_with_put_witness :
  vstored (edit_post_action healthy 1
             {[ "title" := "T"; "author" := " U"; "content" := "V " ]}
             sample_table)
  = stored (api_update_post repr_stub healthy 1
              (json_of_form
                 {[ "title" := "T"; "author" := " U"; "content" := "V " ]})
              sample_table).
Proof.
  apply (edit_post_action_agrees_with_put repr_stub 1
           {[ "title" := "T"; "author" := " U"; "content" := "V " ]}
           sample_table).
  intros k Hk. unfold post_fields in Hk. rewrite !elem_of_cons in Hk.
  destruct Hk as [-> | [-> | [-> | Hk]]]; try (vm_compute; discriminate).
  by apply elem_of_nil in Hk.
Defined.

(** On the key 9: a body that is a number, and a form without an author;
    on the key [2 ^ 63]: the same body, and a form without blank fields. *)
Lemma unknown_id_put_and_edit_witness :
  api_update_post repr_stub healthy 9 (Some (JInt 5)) sample_table
  = mkRun (Return (Json (error "Not found") 404)) sample_table [Commit; Close]
  ∧ page_status
      (vresult (edit_post_action healthy 9
                  {[ "title" := "T"; "content" := "V" ]} sample_table))
    = 200
  ∧ api_update_post repr_stub healthy (2 ^ 63) (Some (JInt 5)) sample_table
    = mkRun (Raise OverflowError) sample_table [Rollback; Close]
  ∧ page_status
      (vresult (edit_post_action healthy (2 ^ 63)
                  {[ "title" := "T"; "author" := "U"; "content" := "V" ]}
                  sample_table))
    = 500.
Proof.
  destruct (unknown_id_put_and_edit repr_stub 9 sample_table)
    as (Hput & _ & Hblank); [reflexivity |].
  destruct (unknown_id_put_and_edit repr_stub (2 ^ 63) sample_table)
    as (_ & Hbig & _); [reflexivity |].
  destruct (Hput eq_refl) as [Hfit _].
  destruct (Hbig eq_refl) as [Hraise Hform].
  split_and!.
  - apply Hfit.
  - apply Hblank. exists "author". split; [in_post_fields | reflexivity].
  - apply Hraise.
  - apply Hform. intros k Hk. unfold post_fields in Hk.
    rewrite !elem_of_cons in Hk.
    destruct Hk as [-> | [-> | [-> | Hk]]]; try (vm_compute; discriminate).
    by apply elem_of_nil in Hk.
Defined.

(** ** Reads *)

(** X10. The reading routes of the API and the list page never change the
    table, whatever the storage engine does to their scope; with a healthy
    engine [GET /api/posts/{id}] answers 200 with the stored record when the
    key is in the table; when it is not, it answers 404 with
    [{"error": "Not found"}] if the id fits a signed 64-bit integer, and
    500 after a rollback if it does not (the lookup raises
    [OverflowError]). *)
Theorem api_reads_never_write (post_id : Z) (db : table) :
  (∀ eng, stored (api_list_posts eng db) = db
          ∧ stored (api_get_post eng post_id db) = db
          ∧ stored (index eng db) = db)
  ∧ api_get_post healthy post_id db
    = match db !! post_id with
      | Some r =>
          mkRun (Return (Json (post_to_dict (load post_id r)) 200)) db
            [Commit; Close]
      | None =>
          if fits_int64 post_id then
            mkRun (Return (Json (error "Not found") 404)) db [Commit; Close]
          else
            mkRun (Raise OverflowError) db [Rollback; Close]
      end
  ∧ (db !! post_id = None ∧ fits_int64 post_id = true ↔
     status_code (result (api_get_post healthy post_id db)) = 404)
  ∧ (db !! post_id = None ∧ fits_int64 post_id = false ↔
     status_code (result (api_get_post healthy post_id db)) = 500).
Proof.
  assert (api_get_post healthy post_id db
          = match db !! post_id with
            | Some r =>
                mkRun (Return (Json (post_to_dict (load post_id r)) 200)) db
                  [Commit; Close]
            | None =>
                if fits_int64 post_id then
                  mkRun (Return (Json (error "Not found") 404)) db
                    [Commit; Close]
                else
                  mkRun (Raise OverflowError) db [Rollback; Close]
            end) as Hget.
  { destruct (db !! post_id) as [r |] eqn:Hr.
    - by apply api_get_post_found.
    - destruct (fits_int64 post_id) eqn:Hk.
      + by apply api_get_post_missing.
      + by apply api_get_post_overflow. }
  split_and!.
  - intros eng. split_and!; apply get_session_read_only; intros t; try done.
    unfold bind. pose proof (s_get_read_only post_id t) as Hro.
    by destruct (s_get post_id t) as [[[p |] | e] t']; simpl in *; subst t'.
  - exact Hget.
  - rewrite Hget.
    destruct (db !! post_id), (fits_int64 post_id); simpl;
      split; (by intros [? ?]) || done.
  - rewrite Hget.
    destruct (db !! post_id), (fits_int64 post_id); simpl;
      split; (by intros [? ?]) || done.
Qed.

(** The post 1 of the sample table, the absent id 7 and the absent id
    [2 ^ 63]. *)
Lemma api_reads_never_write_witness :
  api_get_post healthy 1 sample_table
  = mkRun (Return (Json (post_to_dict sample_post) 200)) sample_table
      [Commit; Close]
  ∧ status_code (result (api_get_post healthy 7 sample_table)) = 404
  ∧ api_get_post healthy (2 ^ 63) sample_table
    = mkRun (Raise OverflowError) sample_table [Rollback; Close].
Proof.
  pose proof (api_reads_never_write 1 sample_table) as (_ & Hone & _).
  pose proof (api_reads_never_write 7 sample_table) as (_ & _ & Hseven & _).
  pose proof (api_reads_never_write (2 ^ 63) sample_table) as (_ & Hbig & _).
  split_and!.
  - rewrite Hone. reflexivity.
  - apply Hseven. split; reflexivity.
  - rewrite Hbig. reflexivity.
Defined.

(** ** Trimming *)

Lemma lstrip_head (s : string) :
  lstrip s = "" ∨ ∃ c r, lstrip s = String c r ∧ isspace c = false.
Proof.
  induction s as [| c r IH]; simpl; [by left |].
  destruct (isspace c) eqn:Hc; [done |]. right. by exists c, r.
Qed.

Lemma rstrip_idemp (s : string) : rstrip (rstrip s) = rstrip s.
Proof.
  induction s as [| c r IH]; simpl; [done |].
  destruct (rstrip r) as [| c' r'] eqn:Hr.
  - destruct (isspace c) eqn:Hc; simpl; [done | by rewrite Hc].
  - simpl in IH |- *. by rewrite IH.
Qed.

Lemma rstrip_head (c : ascii) (r : string) :
  isspace c = false → ∃ r', rstrip (String c r) = String c r'.
Proof.
  intros Hc. simpl. destruct (rstrip r) as [| c' r']; [| by eexists].
  rewrite Hc. by eexists.
Qed.

(** Trimming what is trimmed changes nothing. *)
Lemma strip_idemp (s : string) : strip (strip s) = strip s.
Proof.
  unfold strip. destruct (lstrip_head s) as [-> | (c & r & -> & Hc)]; [done |].
  destruct (rstrip_head c r Hc) as [r' Hr']. rewrite Hr'. simpl lstrip.
  rewrite Hc, <- Hr'. apply rstrip_idemp.
Qed.

Lemma lstrip_empty (s : string) : lstrip s = "" ↔ all_space s = true.
Proof.
  induction s as [| c r IH]; simpl; [done |].
  destruct (isspace c); simpl; [done |]. split; discriminate.
Qed.

Lemma rstrip_empty (s : string) : rstrip s = "" ↔ all_space s = true.
Proof.
  induction s as [| c r IH]; simpl; [done |].
  destruct (rstrip r) as [| c' r'].
  - destruct (isspace c); simpl.
    + split; [intros _; by apply IH | done].
    + split; discriminate.
  - split; [discriminate |]. intros [_ Hr]%andb_true_iff.
    apply IH in Hr. discriminate.
Qed.

(** What [strip] leaves empty is whitespace only. *)
Lemma strip_empty (s : string) : strip s = "" ↔ all_space s = true.
Proof.
  unfold strip. rewrite rstrip_empty.
  destruct (lstrip_head s) as [H | (c & r & H & Hc)].
  - rewrite H. simpl. split; [intros _; by apply lstrip_empty | done].
  - rewrite H. simpl. rewrite Hc. simpl. split; [discriminate |].
    intros Hs%lstrip_empty. rewrite Hs in H. discriminate.
Qed.

(** ** What a request can do to the table *)

Lemma patched_from_refl (r : Row) : patched_from r r.
Proof. unfold patched_from. auto. Qed.

Lemma row_of_load (k : Z) (r : Row) : row_of (load k r) = r.
Proof. by destruct r. Qed.

Section Effects.

Variable py_repr : json → string.

Lemma update_field_assigned (k : string) (set : string → Post → Post)
    (data : json) (post_id : Z) (r : Row) (db : table) (p : Post)
    (t : table) :
  (∀ s q, id (set s q) = id q) →
  (∀ s q, written s → patched_from r (row_of q) →
          patched_from r (row_of (set s q))) →
  assigned post_id r db p t →
  ∃ o t', update_field py_repr k set data p t = (o, t')
          ∧ match o with
            | Return (inr p') => assigned post_id r db p' t'
            | _ => t' = t
            end.
Proof.
  intros Hid Hset (Hp & Hfrom & Ht).
  destruct data as [| b | z | f | s | l | d].
  7: { rewrite update_field_dict. destruct (d !! k) as [v |].
       - destruct (blank (strip (py_str py_repr v))) eqn:Hv.
         + by eexists _, _.
         + apply blank_false in Hv. eexists _, _. split; [done |].
           split; [by rewrite Hid |].
           split; [apply Hset; [by split; [| apply strip_idemp] | done] |].
           by rewrite Hid, Hp, Ht, insert_insert_eq.
       - by eexists _, _. }
  all: match goal with
       | |- context [update_field _ _ _ ?data _ _] =>
           destruct (update_field_not_dict py_repr k set data p t) as [-> | ->];
           [done | by eexists _, _ | by eexists _, _]
       end.
Qed.

Lemma set_title_patched (r : Row) (s : string) (q : Post) :
  written s → patched_from r (row_of q) →
  patched_from r (row_of (set_title s q)).
Proof. unfold patched_from. simpl. intros ? (? & ? & ? & ?). auto. Qed.

Lemma set_author_patched (r : Row) (s : string) (q : Post) :
  written s → patched_from r (row_of q) →
  patched_from r (row_of (set_author s q)).
Proof. unfold patched_from. simpl. intros ? (? & ? & ? & ?). auto. Qed.

Lemma set_content_patched (r : Row) (s : string) (q : Post) :
  written s → patched_from r (row_of q) →
  patched_from r (row_of (set_content s q)).
Proof. unfold patched_from. simpl. intros ? (? & ? & ? & ?). auto. Qed.

(** Whatever the engine and the body, an update stores the table as it
    was, or the table with the row of the post replaced by a patched one. *)
Lemma api_update_post_effect (eng : faults) (post_id : Z)
    (body : option json) (db : table) :
  stored (api_update_post py_repr eng post_id body db) = db
  ∨ ∃ r r', db !! post_id = Some r ∧ patched_from r r'
            ∧ stored (api_update_post py_repr eng post_id body db)
              = <[post_id := r']> db.
Proof.
  unfold api_update_post. scope_cases H; [by left |].
  unfold bind at 1 in H. unfold s_get in H.
  destruct (db !! post_id) as [r |] eqn:Hr; simpl in H.
  2: { left. destruct (fits_int64 post_id); simpl in H; [| done].
       unfold ret in H. by injection H. }
  right. exists r.
  assert (assigned post_id r db (load post_id r) db) as J0.
  { split; [done |]. rewrite row_of_load.
    split; [apply patched_from_refl | by rewrite insert_id]. }
  unfold bind, ret in H.
  destruct (update_field_assigned "title" set_title (get_json_or_empty body)
              post_id r db _ db (fun _ _ => eq_refl) (set_title_patched r) J0)
    as (o1 & t1 & E1 & M1).
  rewrite E1 in H. destruct o1 as [[resp | p1] | e]; simpl in H;
    [| | discriminate].
  { injection H as _ <-. subst t1. exists r.
    split_and!; [done | apply patched_from_refl | by rewrite insert_id]. }
  destruct (update_field_assigned "author" set_author (get_json_or_empty body)
              post_id r db p1 t1 (fun _ _ => eq_refl) (set_author_patched r) M1)
    as (o2 & t2 & E2 & M2).
  rewrite E2 in H. destruct o2 as [[resp | p2] | e]; simpl in H;
    [| | discriminate].
  { injection H as _ <-. subst t2. destruct M1 as (_ & ? & ->).
    by exists (row_of p1). }
  destruct (update_field_assigned "content" set_content
              (get_json_or_empty body) post_id r db p2 t2
              (fun _ _ => eq_refl) (set_content_patched r) M2)
    as (o3 & t3 & E3 & M3).
  rewrite E3 in H. destruct o3 as [[resp | p3] | e]; simpl in H;
    [| | discriminate].
  { injection H as _ <-. subst t3. destruct M2 as (_ & ? & ->).
    by exists (row_of p2). }
  injection H as _ <-. destruct M3 as (_ & ? & ->). by exists (row_of p3).
Qed.

Lemma required_field_trimmed (data : json) (k s : string) :
  required_field data k = Return s → strip s = s.
Proof.
  unfold required_field, and_then, py_strip.
  destruct (py_get data k) as [v |]; [| done].
  destruct (py_or v (JStr "")); try done. intros [= <-]. apply strip_idemp.
Qed.

Lemma create_fields_trimmed (data : json) (ti au co : string) :
  create_fields data = Return (ti, au, co) →
  row_trimmed (mkRow ti au co None).
Proof.
  unfold create_fields, and_then.
  destruct (required_field data "title") as [x |] eqn:Hx; [| done].
  destruct (required_field data "author") as [y |] eqn:Hy; [| done].
  destruct (required_field data "content") as [z |] eqn:Hz; [| done].
  intros [= <- <- <-].
  split_and!; simpl; by eapply required_field_trimmed.
Qed.

Lemma api_create_post_effect (eng : faults) (now : datetime)
    (body : option json) (db : table) :
  stored (api_create_post eng now body db) = db
  ∨ ∃ r, row_ok r ∧ row_trimmed r
         ∧ stored (api_create_post eng now body db) = <[next_rowid db := r]> db.
Proof.
  unfold api_create_post.
  destruct (create_fields (get_json_or_empty body)) as [[[ti au] co] | e]
    eqn:Hfields; [| by left].
  apply create_fields_trimmed in Hfields.
  destruct (blank ti) eqn:Bt; [by left |].
  destruct (blank au) eqn:Ba; [by left |].
  destruct (blank co) eqn:Bc; [by left |]. simpl.
  scope_cases H; [by left |]. right.
  exists (mkRow ti au co (Some now)).
  unfold bind, s_add_flush, ret in H. injection H as _ <-.
  apply blank_false in Bt, Ba, Bc. by split_and!.
Qed.

Lemma api_delete_post_effect (eng : faults) (post_id : Z) (db : table) :
  stored (api_delete_post eng post_id db) = db
  ∨ stored (api_delete_post eng post_id db) = delete post_id db.
Proof.
  unfold api_delete_post. scope_cases H; [by left |].
  unfold bind, s_get, s_delete, ret in H.
  destruct (db !! post_id) as [r |]; simpl in H;
    [| destruct (fits_int64 post_id); simpl in H; [| done]];
    injection H as _ <-; auto.
Qed.

Lemma dispatch_effect (eng : faults) (now : datetime) (req : request)
    (db : table) :
  effect db (stored (dispatch py_repr eng now req db)).
Proof.
  destruct req as [| post_id | body | post_id body | post_id |]; simpl;
    unfold api_list_posts, api_get_post, index.
  - rewrite get_session_read_only by done. constructor.
  - rewrite get_session_read_only; [constructor |].
    intros t. unfold bind. pose proof (s_get_read_only post_id t) as Hro.
    by destruct (s_get post_id t) as [[[p |] | e] t']; simpl in *; subst t'.
  - destruct (api_create_post_effect eng now body db)
      as [-> | (r & ? & ? & ->)]; by constructor.
  - destruct (api_update_post_effect eng post_id body db)
      as [-> | (r & r' & ? & ? & ->)]; [constructor | by econstructor].
  - destruct (api_delete_post_effect eng post_id db) as [-> | ->];
      constructor.
  - rewrite get_session_read_only by done. constructor.
Qed.

End Effects.

Lemma new_post_action_effect (eng : faults) (now : datetime) (f : form)
    (db : table) :
  vstored (new_post_action eng now f db) = db
  ∨ ∃ r, row_ok r ∧ row_trimmed r
         ∧ vstored (new_post_action eng now f db) = <[next_rowid db := r]> db.
Proof.
  unfold new_post_action.
  destruct (blank (form_get f "title")) eqn:Bt; [by left |].
  destruct (blank (form_get f "author")) eqn:Ba; [by left |].
  destruct (blank (form_get f "content")) eqn:Bc; [by left |]. simpl.
  view_cases H; [by left |]. right.
  exists (mkRow (form_get f "title") (form_get f "author")
            (form_get f "content") (Some now)).
  unfold vbind, of_work, s_add_flush, vret in H. simpl in H.
  injection H as _ <-. apply blank_false in Bt, Ba, Bc.
  split_and!; try done.
  unfold row_trimmed, form_get. simpl. split_and!; apply strip_idemp.
Qed.

Lemma dispatch_page_effect (eng : faults) (now : datetime)
    (req : page_request) (db : table) :
  effect db (vstored (dispatch_page eng now req db)).
Proof.
  destruct req as [| f | post_id | post_id | post_id f | post_id]; simpl.
  - constructor.
  - destruct (new_post_action_effect eng now f db)
      as [-> | (r & ? & ? & ->)]; by constructor.
  - unfold post_detail_page. rewrite get_session_view_read_only;
      [constructor |].
    intros t. apply lookup_view_read_only. by intros [p |] t'.
  - unfold edit_post_page. rewrite get_session_view_read_only;
      [constructor |].
    intros t. apply lookup_view_read_only. by intros [p |] t'.
  - destruct (edit_post_action_cases eng post_id f db)
      as [-> | (r & Hr & Hok & _ & ->)]; [constructor |].
    apply (Updated db post_id r); [done |].
    unfold patched_from. simpl. split; [done |].
    split_and!; right; (split; [apply Hok; in_post_fields | apply strip_idemp]).
  - destruct (delete_post_action_cases eng post_id db)
      as [[-> | ->] _]; constructor.
Qed.

Lemma effect_frame (db t : table) :
  effect db t → ∃ k, ∀ k', k' ≠ k → t !! k' = db !! k'.
Proof.
  intros [| r Hr Hr' | k r r' Hk Hr | k].
  - by exists 0.
  - exists (next_rowid db). intros k' Hk'. by rewrite lookup_insert_ne.
  - exists k. intros k' Hk'. by rewrite lookup_insert_ne.
  - exists k. intros k' Hk'. by rewrite lookup_delete_ne.
Qed.

Lemma effect_table_ok (db t : table) : table_ok db → effect db t → table_ok t.
Proof.
  intros Hok [| r Hr Hr' | k r r' Hk Hr | k] k' r''.
  - apply Hok.
  - rewrite lookup_insert. case_decide; [| apply Hok]. by intros [= <-].
  - rewrite lookup_insert. case_decide; [| apply Hok]. intros [= <-].
    destruct (Hok k r Hk) as (Ht & Ha & Hc & Hd).
    destruct Hr as (Hd' & Ht' & Ha' & Hc').
    unfold row_ok. rewrite Hd'. split_and!; [| | | done].
    + by destruct Ht' as [-> | []].
    + by destruct Ha' as [-> | []].
    + by destruct Hc' as [-> | []].
  - rewrite lookup_delete. case_decide; [done | apply Hok].
Qed.

Lemma effect_table_trimmed (db t : table) :
  table_trimmed db → effect db t → table_trimmed t.
Proof.
  intros Hok [| r Hr Hr' | k r r' Hk Hr | k] k' r''.
  - apply Hok.
  - rewrite lookup_insert. case_decide; [| apply Hok]. by intros [= <-].
  - rewrite lookup_insert. case_decide; [| apply Hok]. intros [= <-].
    destruct (Hok k r Hk) as (Ht & Ha & Hc).
    destruct Hr as (_ & Ht' & Ha' & Hc').
    unfold row_trimmed. split_and!.
    + by destruct Ht' as [-> | []].
    + by destruct Ha' as [-> | []].
    + by destruct Hc' as [-> | []].
  - rewrite lookup_delete. case_decide; [done | apply Hok].
Qed.

Lemma seed_posts_stored (now : datetime) :
  s_add_all now seed_posts ∅
  = (Return tt,
     <[2 := mkRow "Edit & Delete" "Bob"
              "You can edit or delete this post from the UI below."
              (Some now)]>
       (<[1 := mkRow "Hello SQLAlchemy" "Alice"
                 ("This is your first DB-backed post." ++ String "010"
                    "It persists in SQLite.") (Some now)]> ∅)).
Proof. reflexivity. Qed.

Lemma startup_table_ok (eng : faults) (now : datetime) (db : table) :
  table_ok db ∧ table_trimmed db →
  table_ok (stored (startup eng now db))
  ∧ table_trimmed (stored (startup eng now db)).
Proof.
  intros Hok. unfold startup. scope_cases H; [by rewrite H |].
  unfold seed, bind, s_count in H.
  destruct (Nat.eqb (size db) 0) eqn:Hsize.
  - apply Nat.eqb_eq, map_size_empty_iff in Hsize. subst db.
    rewrite seed_posts_stored in H. injection H as _ <-.
    split; intros k r; rewrite lookup_insert; (case_decide;
      [ intros [= <-]; by split_and!
      | rewrite lookup_insert; case_decide; [| by rewrite lookup_empty];
        intros [= <-]; by split_and! ]).
  - unfold ret in H. injection H as _ <-. done.
Qed.

(** X11. Whenever an exception leaves a route, of the API or of the pages
    and whatever the storage engine does, the table is as it was before the
    request: a 500 or a 404 raised by [abort] never comes with a write. *)
Theorem exception_leaves_table_unchanged (py_repr : json → string)
    (eng : faults) (now : datetime) (db : table) :
  (∀ req e, result (dispatch py_repr eng now req db) = Raise e →
            stored (dispatch py_repr eng now req db) = db)
  ∧ (∀ req e, vresult (dispatch_page eng now req db) = inr e →
              vstored (dispatch_page eng now req db) = db).
Proof.
  split.
  - intros [| post_id | body | post_id body | post_id |] e; simpl;
      try apply get_session_raised.
    unfold api_create_post.
    destruct (create_fields (get_json_or_empty body)) as [[[ti au] co] |];
      [| done].
    destruct (blank ti || blank au || blank co); [done |].
    apply get_session_raised.
  - intros [| f | post_id | post_id | post_id f | post_id] e; simpl;
      try apply get_session_view_raised; try done.
    + unfold new_post_action.
      destruct (blank (form_get f "title") || blank (form_get f "author")
                || blank (form_get f "content")); [done |].
      apply get_session_view_raised.
    + unfold edit_post_action.
      destruct (blank (form_get f "title") || blank (form_get f "author")
                || blank (form_get f "content")); [done |].
      apply get_session_view_raised.
    + apply delete_post_action_cases.
Qed.

(** A [PUT] whose body is a number raises [TypeError]; a create on an
    engine whose commit fails raises the engine's error. *)
Lemma exception_leaves_table_unchanged_witness :
  stored (dispatch repr_stub healthy sample_time
            (PUT_api_post 1 (Some (JInt 5))) sample_table)
  = sample_table
  ∧ stored (dispatch repr_stub disk_full sample_time
              (POST_api_posts
                 (obj {[ "title" := JStr "T"; "author" := JStr "U";
                         "content" := JStr "V" ]})) sample_table)
    = sample_table
  ∧ vstored (dispatch_page healthy sample_time (GET_post 9) sample_table)
    = sample_table.
Proof.
  pose proof (exception_leaves_table_unchanged repr_stub healthy sample_time
                sample_table) as [Hapi Hpage].
  pose proof (exception_leaves_table_unchanged repr_stub disk_full
                sample_time sample_table) as [Hfull _].
  split_and!.
  - apply (Hapi (PUT_api_post 1 (Some (JInt 5))) TypeError). reflexivity.
  - apply (Hfull (POST_api_posts
                    (obj {[ "title" := JStr "T"; "author" := JStr "U";
                            "content" := JStr "V" ]}))
             (StorageError "disk full")).
    reflexivity.
  - apply (Hpage (GET_post 9) NotFound). reflexivity.
Defined.

(** X12. One request, of the API or of the pages and whatever the storage
    engine does, does one of four things to the table: nothing; the insert
    of one row, with non-empty trimmed title, author and content and
    [created_at] set, under the next key; the replacement of the row of one
    existing key by a row with the same [created_at] in which each of title,
    author and content is the old value or a non-empty trimmed one; the
    deletion of one key. In particular it touches at most one key. *)
Theorem one_request_one_effect (py_repr : json → string) (eng : faults)
    (now : datetime) (db : table) :
  (∀ req, effect db (stored (dispatch py_repr eng now req db)))
  ∧ (∀ req, effect db (vstored (dispatch_page eng now req db)))
  ∧ (∀ req, ∃ k, ∀ k', k' ≠ k →
       stored (dispatch py_repr eng now req db) !! k' = db !! k')
  ∧ (∀ req, ∃ k, ∀ k', k' ≠ k →
       vstored (dispatch_page eng now req db) !! k' = db !! k').
Proof.
  split_and!.
  - intros req. apply dispatch_effect.
  - intros req. apply dispatch_page_effect.
  - intros req. apply effect_frame, dispatch_effect.
  - intros req. apply effect_frame, dispatch_page_effect.
Qed.

(** X13. The table keeps the invariant of the data model: when every row
    has non-empty title, author and content without whitespace at either
    end, and a [created_at], so has every row after the start-up block,
    after any request of the API or of the pages, and after any sequence of
    API requests, whatever the storage engine does. *)
Theorem table_ok_is_kept (py_repr : json → string) (eng : faults)
    (db : table) :
  table_ok db ∧ table_trimmed db →
  (∀ now, table_ok (stored (startup eng now db))
          ∧ table_trimmed (stored (startup eng now db)))
  ∧ (∀ now req, table_ok (stored (dispatch py_repr eng now req db))
                ∧ table_trimmed (stored (dispatch py_repr eng now req db)))
  ∧ (∀ now req, table_ok (vstored (dispatch_page eng now req db))
                ∧ table_trimmed (vstored (dispatch_page eng now req db)))
  ∧ (∀ reqs, table_ok (serve py_repr eng reqs db)
             ∧ table_trimmed (serve py_repr eng reqs db)).
Proof.
  intros Hok. split_and!.
  - intros now. by apply startup_table_ok.
  - intros now req. destruct Hok.
    split; [eapply effect_table_ok | eapply effect_table_trimmed];
      try done; apply dispatch_effect.
  - intros now req. destruct Hok.
    split; [eapply effect_table_ok | eapply effect_table_trimmed];
      try done; apply dispatch_page_effect.
  - intros reqs. revert db Hok.
    induction reqs as [| [now req] reqs IH]; intros db Hok; [done |].
    simpl. apply IH. destruct Hok.
    split; [eapply effect_table_ok | eapply effect_table_trimmed];
      try done; apply dispatch_effect.
Qed.

(** The empty table after start-up, a create and the update of C1. *)
Lemma table_ok_is_kept_witness :
  (table_ok (stored (startup healthy sample_time ∅))
   ∧ table_trimmed (stored (startup healthy sample_time ∅)))
  ∧ table_ok
      (serve repr_stub healthy
         [(sample_time,
           POST_api_posts (obj {[ "title" := JStr "T"; "author" := JStr "U";
                                  "content" := JStr "V" ]}));
          (sample_time,
           PUT_api_post 1 (obj {[ "title" := JStr "X";
                                  "author" := JStr "" ]}))] ∅)
    ∧ table_trimmed
        (serve repr_stub healthy
           [(sample_time,
             POST_api_posts (obj {[ "title" := JStr "T"; "author" := JStr "U";
                                    "content" := JStr "V" ]}));
            (sample_time,
             PUT_api_post 1 (obj {[ "title" := JStr "X";
                                    "author" := JStr "" ]}))] ∅).
Proof.
  assert (table_ok ∅ ∧ table_trimmed ∅) as Hempty.
  { split; intros k r; by rewrite lookup_empty. }
  pose proof (table_ok_is_kept repr_stub healthy ∅ Hempty)
    as (Hstart & _ & _ & Hserve).
  split; [apply Hstart | apply Hserve].
Defined.

(** ** Whitespace, and forms sent back unchanged *)

Lemma form_get_empty (f : form) (k : string) :
  form_get f k = "" ↔ all_space (default "" (f !! k)) = true.
Proof. unfold form_get. apply strip_empty. Qed.

(** X14. A form posted to [/posts/new] is answered with the form again
    exactly when one of title, author and content is missing or consists of
    whitespace characters only, and the same strings sent to
    [POST /api/posts] are answered 400 in exactly that case; whatever the
    storage engine does. *)
Theorem rejected_iff_whitespace_only (eng : faults) (now : datetime)
    (f : form) (db : table) :
  ((∃ k, k ∈ post_fields ∧ all_space (default "" (f !! k)) = true) ↔
   page_status (vresult (new_post_action eng now f db)) = 200)
  ∧ ((∃ k, k ∈ post_fields ∧ all_space (default "" (f !! k)) = true) ↔
     status_code (result (api_create_post eng now (json_of_form f) db)) = 400).
Proof.
  assert ((∃ k, k ∈ post_fields ∧ all_space (default "" (f !! k)) = true) ↔
          blank (form_get f "title") || blank (form_get f "author")
          || blank (form_get f "content") = true) as ->.
  { split.
    - intros (k & Hk & Hs). apply blank_some_field. exists k.
      by rewrite form_get_empty.
    - rewrite !orb_true_iff, !blank_true, !form_get_empty.
      intros [[H | H] | H]; eexists; (split; [| exact H]); in_post_fields. }
  rewrite api_create_post_form. unfold new_post_action.
  destruct (blank (form_get f "title") || blank (form_get f "author")
            || blank (form_get f "content")); [done |].
  unfold get_session_view, get_session, on_view_exception, on_exception,
    vbind, bind, of_work, s_add_flush. simpl.
  destruct (commit_fails eng), (rollback_fails eng); simpl; by split.
Qed.

(** X15. Sending the edit form back with the values the post has, when
    these are non-empty and trimmed (as every value the handlers write is),
    leaves the table exactly as it was and redirects to the post. *)
Theorem edit_post_action_unchanged_form (post_id : Z) (r : Row)
    (db : table) :
  db !! post_id = Some r → row_ok r → row_trimmed r →
  edit_post_action healthy post_id (form_of_row r) db
  = mkVrun (inl (Redirect (url_for_post_detail_page post_id))) db
      [Commit; Close].
Proof.
  intros Hr (Ht & Ha & Hc & _) (St & Sa & Sc).
  assert (form_get (form_of_row r) "title" = row_title r
          ∧ form_get (form_of_row r) "author" = row_author r
          ∧ form_get (form_of_row r) "content" = row_content r)
    as (Et & Ea & Ec).
  { unfold form_get, form_of_row. by split_and!. }
  rewrite edit_post_action_valid, Hr.
  - rewrite Et, Ea, Ec. destruct r. simpl. by rewrite insert_id.
  - intros k Hk. unfold post_fields in Hk. rewrite !elem_of_cons in Hk.
    destruct Hk as [-> | [-> | [-> | Hk]]]; [| | | by apply elem_of_nil in Hk];
      congruence.
Qed.

Lemma edit_post_action_unchanged_form_witness :
  edit_post_action healthy 1
    (form_of_row (mkRow "A" "B" "C" (Some sample_time))) sample_table
  = mkVrun (inl (Redirect (url_for_post_detail_page 1))) sample_table
      [Commit; Close].
Proof.
  apply (edit_post_action_unchanged_form 1
           (mkRow "A" "B" "C" (Some sample_time)) sample_table).
  - reflexivity.
  - by split_and!.
  - by split_and!.
Defined.

(** ** Round trips through the API *)

Section RoundTrips.

Variable py_repr : json → string.

(** X17. A client that gets a post and puts the record back unchanged
    changes nothing: for a post whose title, author and content are
    non-empty and trimmed, [PUT /api/posts/{id}] with the body that
    [GET /api/posts/{id}] answered is answered 200 with the same record, and
    the table is as it was (the [id] and [created_at] of the body are not
    read). *)
Theorem put_back_what_get_answered (post_id : Z) (r : Row) (db : table) :
  db !! post_id = Some r → row_ok r → row_trimmed r →
  ∃ record,
    result (api_get_post healthy post_id db) = Return (Json record 200)
    ∧ api_update_post py_repr healthy post_id (Some record) db
      = mkRun (Return (Json record 200)) db [Commit; Close].
Proof.
  intros Hr (Ht & Ha & Hc & _) (St & Sa & Sc).
  rewrite (api_get_post_found post_id r db Hr).
  exists (post_to_dict (load post_id r)). split; [done |].
  unfold post_to_dict.
  match goal with
  | |- context [Some (JDict ?m)] => set (d := m)
  end.
  assert (d !! "title" = Some (JStr (row_title r))
          ∧ d !! "author" = Some (JStr (row_author r))
          ∧ d !! "content" = Some (JStr (row_content r))) as (Dt & Da & Dc).
  { by split_and!. }
  rewrite (api_update_post_dict py_repr post_id _ d db r);
    [| done | apply get_json_or_empty_dict |].
  - assert (patched_row py_repr d r = r) as ->.
    { unfold patched_row, patch. rewrite Dt, Da, Dc. simpl.
      rewrite St, Sa, Sc. by destruct r. }
    by rewrite insert_id.
  - intros k v Hk Hv. unfold post_fields in Hk. rewrite !elem_of_cons in Hk.
    destruct Hk as [-> | [-> | [-> | Hk]]]; [| | | by apply elem_of_nil in Hk].
    + rewrite Dt in Hv. injection Hv as <-. simpl. congruence.
    + rewrite Da in Hv. injection Hv as <-. simpl. congruence.
    + rewrite Dc in Hv. injection Hv as <-. simpl. congruence.
Qed.

(** X18. When [PUT /api/posts/{id}] answers 200 (an object body whose
    present fields are not blank, on an existing post), the record in its
    answer is the record [GET /api/posts/{id}] answers afterwards. *)
Theorem put_answer_is_what_get_answers (post_id : Z) (d : gmap string json)
    (r : Row) (db : table) :
  db !! post_id = Some r →
  (∀ k v, k ∈ post_fields → d !! k = Some v →
          strip (py_str py_repr v) ≠ "") →
  status_code (result (api_update_post py_repr healthy post_id (obj d) db))
  = 200
  ∧ result (api_get_post healthy post_id
              (stored (api_update_post py_repr healthy post_id (obj d) db)))
    = result (api_update_post py_repr healthy post_id (obj d) db).
Proof.
  intros Hr Hok.
  rewrite (api_update_post_dict py_repr post_id (obj d) d db r)
    by (done || apply get_json_or_empty_dict).
  simpl. split; [done |].
  by rewrite (api_get_post_found post_id (patched_row py_repr d r))
    by apply lookup_insert_eq.
Qed.

End RoundTrips.

Lemma put_back_what_get_answered_witness :
  ∃ record,
    result (api_get_post healthy 1 sample_table) = Return (Json record 200)
    ∧ api_update_post repr_stub healthy 1 (Some record) sample_table
      = mkRun (Return (Json record 200)) sample_table [Commit; Close].
Proof.
  apply (put_back_what_get_answered repr_stub 1
           (mkRow "A" "B" "C" (Some sample_time)) sample_table).
  - reflexivity.
  - by split_and!.
  - by split_and!.
Defined.

Lemma put_answer_is_what_get_answers_witness :
  status_code
    (result (api_update_post repr_stub healthy 1
               (obj {[ "content" := JInt 42 ]}) sample_table))
  = 200
  ∧ result (api_get_post healthy 1
              (stored (api_update_post repr_stub healthy 1
                         (obj {[ "content" := JInt 42 ]}) sample_table)))
    = result (api_update_post repr_stub healthy 1
                (obj {[ "content" := JInt 42 ]}) sample_table).
Proof.
  apply (put_answer_is_what_get_answers repr_stub 1
           {[ "content" := JInt 42 ]} (mkRow "A" "B" "C" (Some sample_time))
           sample_table).
  - reflexivity.
  - intros k v Hk Hv. unfold post_fields in Hk. rewrite !elem_of_cons in Hk.
    destruct Hk as [-> | [-> | [-> | Hk]]]; vm_compute in Hv;
      [discriminate | discriminate | | by apply elem_of_nil in Hk].
    injection Hv as <-. vm_compute. discriminate.
Defined.

(** X19. Deleting the post that a create just stored gives back the table
    as it was before the create, through the API and through the pages. *)
Theorem create_then_delete_restores (now : datetime) (f : form)
    (db : table) :
  (∀ k, k ∈ post_fields → form_get f k ≠ "") →
  stored (api_delete_post healthy (next_rowid db)
            (stored (api_create_post healthy now (json_of_form f) db)))
  = db
  ∧ vstored (delete_post_action healthy (next_rowid db)
               (vstored (new_post_action healthy now f db)))
    = db.
Proof.
  intros Hok. split.
  - rewrite api_delete_post_stored, api_create_post_form,
      blank_no_field by done.
    rewrite get_session_healthy. unfold bind, s_add_flush, ret. simpl.
    rewrite delete_insert_eq. apply delete_id, next_rowid_fresh.
  - rewrite new_post_action_valid by done. simpl.
    rewrite delete_post_action_healthy
      by (right; rewrite lookup_insert_eq; eauto).
    simpl. rewrite delete_insert_eq. apply delete_id, next_rowid_fresh.
Qed.

Lemma create_then_delete_restores_witness :
  stored (api_delete_post healthy (next_rowid sample_table)
            (stored (api_create_post healthy sample_time
                       (json_of_form
                          {[ "title" := "T"; "author" := "U";
                             "content" := "V" ]}) sample_table)))
  = sample_table.
Proof.
  apply (create_then_delete_restores sample_time
           {[ "title" := "T"; "author" := "U"; "content" := "V" ]}
           sample_table).
  intros k Hk. unfold post_fields in Hk. rewrite !elem_of_cons in Hk.
  destruct Hk as [-> | [-> | [-> | Hk]]]; try (vm_compute; discriminate).
  by apply elem_of_nil in Hk.
Defined.

(** ** One scope per request *)

(** The session calls of a route that opened no session, or opened one and
    closed it. *)
Lemma get_session_calls {A} (eng : faults) (body : work A) (db : table) :
  calls (get_session eng body db)
  ∈ [[Commit; Close]; [Rollback; Close]; [Commit; Rollback; Close]].
Proof.
  unfold get_session, on_exception.
  destruct (body db) as [[a | e] t'], (commit_fails eng),
    (rollback_fails eng); simpl;
    repeat first [apply list_elem_of_here | apply list_elem_of_further].
Qed.

Lemma get_session_view_calls {A} (eng : faults) (body : view A)
    (db : table) :
  vcalls (get_session_view eng body db)
  ∈ [[Commit; Close]; [Rollback; Close]; [Commit; Rollback; Close]].
Proof.
  unfold get_session_view, on_view_exception.
  destruct (body db) as [[a | e] t'], (commit_fails eng),
    (rollback_fails eng); simpl;
    repeat first [apply list_elem_of_here | apply list_elem_of_further].
Qed.

(** X20. Every route, of the API and of the pages and whatever the storage
    engine does, opens at most one session and closes the one it opened: its
    session calls are none, or commit and close, or rollback and close, or a
    failed commit, rollback and close. No session is opened at all by a
    create whose fields are rejected or unreadable, by a form with a blank
    field, nor by the empty form page. *)
Theorem one_scope_per_request (py_repr : json → string) (eng : faults)
    (now : datetime) (db : table) :
  (∀ req,
     calls (dispatch py_repr eng now req db)
     ∈ [[]; [Commit; Close]; [Rollback; Close]; [Commit; Rollback; Close]])
  ∧ (∀ req,
       vcalls (dispatch_page eng now req db)
       ∈ [[]; [Commit; Close]; [Rollback; Close]; [Commit; Rollback; Close]])
  ∧ (∀ req, calls (dispatch py_repr eng now req db) = [] →
            ∃ body, req = POST_api_posts body
                    ∧ status_code (result (dispatch py_repr eng now req db))
                      ≠ 201)
  ∧ (∀ f, (∃ k, k ∈ post_fields ∧ form_get f k = "") →
          vcalls (dispatch_page eng now (POST_posts_new f) db) = []
          ∧ ∀ post_id,
              vcalls (dispatch_page eng now (POST_post_edit post_id f) db)
              = []).
Proof.
  assert (∀ A (b : work A),
            calls (get_session eng b db) ≠ []) as Hopen.
  { intros A b H. pose proof (get_session_calls eng b db) as Hin.
    rewrite H in Hin. rewrite !elem_of_cons in Hin.
    destruct Hin as [| [| [| Hin]]]; try done. by apply elem_of_nil in Hin. }
  split_and!.
  - intros [| post_id | body | post_id body | post_id |]; simpl;
      try (apply list_elem_of_further, get_session_calls).
    unfold api_create_post.
    destruct (create_fields (get_json_or_empty body)) as [[[ti au] co] |];
      [| apply list_elem_of_here].
    destruct (blank ti || blank au || blank co); [apply list_elem_of_here |].
    apply list_elem_of_further, get_session_calls.
  - intros [| f | post_id | post_id | post_id f | post_id]; simpl;
      try apply list_elem_of_here;
      try (apply list_elem_of_further, get_session_view_calls).
    + unfold new_post_action.
      destruct (blank (form_get f "title") || blank (form_get f "author")
                || blank (form_get f "content")); [apply list_elem_of_here |].
      apply list_elem_of_further, get_session_view_calls.
    + unfold edit_post_action.
      destruct (blank (form_get f "title") || blank (form_get f "author")
                || blank (form_get f "content")); [apply list_elem_of_here |].
      apply list_elem_of_further, get_session_view_calls.
    + unfold delete_post_action.
      match goal with
      | |- context [vresult ?s] =>
          pose proof (get_session_view_calls eng
                        (let* p := of_work (s_get post_id) in
                         match p with
                         | Some p => of_work (s_delete p)
                         | None => vret tt
                         end)%view db) as Hc;
          destruct (vresult s); simpl; by apply list_elem_of_further
      end.
  - intros [| post_id | body | post_id body | post_id |]; simpl; intros H;
      try (by apply Hopen in H).
    exists body. split; [done |]. revert H. unfold api_create_post.
    destruct (create_fields (get_json_or_empty body)) as [[[ti au] co] |];
      [| done].
    destruct (blank ti || blank au || blank co); [done |].
    intros H. by apply Hopen in H.
  - intros f Hblank. simpl. unfold new_post_action, edit_post_action.
    by rewrite blank_some_field.
Qed.
